(** * update_headers.py: a shallow embedding and its specification

    The script rewrites the leading koroFileHeader block of C++ sources.
    This development embeds [scripts/update_headers.py] and proves what its
    header splice, its time stamps and its batch loop do.

    Conventions of the embedding:
    - a Python [str] is a list of Unicode code points ([text]); the string
      constants of the script are ASCII and written with [str "..."];
    - Python integers are [Z];
    - the file system, the git subprocess, the clock and standard output are
      fields of an explicit [world]; a computation is a function from the
      world to an outcome (a value or a raised exception) and a new world;
    - [pathlib.Path] objects are POSIX paths: a flag for the root and the
      list of components. *)

From Stdlib Require Import ZArith NArith List String Ascii Bool Lia.
From Stdlib Require Import DecimalString.
From stdpp Require Import base option list gmap.

Local Open Scope N_scope.

(** ** Python strings *)

Abbreviation char := N (only parsing).
Abbreviation text := (list N) (only parsing).

(** An ASCII literal of the script as a [text]. *)
Definition str (s : string) : text :=
  map N_of_ascii (list_ascii_of_string s).
#[global] Arguments str : simpl never.

Definition LF : char := 10.
Definition CR : char := 13.

(** [ch.isspace()] on one code point, which is also the class [\s] of [re]
    on [str] patterns: the Unicode white space of CPython. *)
Definition isspace (c : char) : bool :=
  ((0x09 <=? c) && (c <=? 0x0D)) || ((0x1C <=? c) && (c <=? 0x20))
  || (c =? 0x85) || (c =? 0xA0) || (c =? 0x1680)
  || ((0x2000 <=? c) && (c <=? 0x200A))
  || (c =? 0x2028) || (c =? 0x2029) || (c =? 0x202F) || (c =? 0x205F)
  || (c =? 0x3000).

(** The line boundaries of [str.splitlines] other than CR and CR LF. *)
Definition is_linebreak (c : char) : bool :=
  (c =? 0x0A) || (c =? 0x0B) || (c =? 0x0C) || (c =? 0x1C) || (c =? 0x1D)
  || (c =? 0x1E) || (c =? 0x85) || (c =? 0x2028) || (c =? 0x2029).

(** [s.startswith(p)] *)
Fixpoint startswith (p s : text) : bool :=
  match p, s with
  | [], _ => true
  | _ :: _, [] => false
  | a :: p', b :: s' => (b =? a) && startswith p' s'
  end.

(** [sub in s] *)
Fixpoint contains (sub s : text) : bool :=
  startswith sub s ||
  match s with
  | [] => false
  | _ :: s' => contains sub s'
  end.

(** [s.find(sub)], with [None] for -1. *)
Fixpoint find (sub s : text) : option nat :=
  if startswith sub s then Some O
  else match s with
       | [] => None
       | _ :: s' => S <$> find sub s'
       end.

(** [s.count(sub)]: occurrences counted from the left without overlap.
    [skip] is the number of characters of the last occurrence still to be
    passed over. *)
Fixpoint count_from (sub : text) (skip : nat) (s : text) : nat :=
  match s with
  | [] => O
  | _ :: s' =>
      match skip with
      | S k => count_from sub k s'
      | O => if startswith sub s
             then S (count_from sub (pred (length sub)) s')
             else count_from sub O s'
      end
  end.

Definition count (sub s : text) : Z :=
  match sub with
  | [] => Z.of_nat (S (length s))
  | _ => Z.of_nat (count_from sub O s)
  end.

(** [s.split(sep)] for a non-empty separator; [cur] is the reversed field
    being read. *)
Fixpoint split_from (sep : text) (skip : nat) (cur : text) (s : text)
  : list text :=
  match s with
  | [] => [rev cur]
  | c :: s' =>
      match skip with
      | S k => split_from sep k cur s'
      | O => if startswith sep s
             then rev cur :: split_from sep (pred (length sep)) [] s'
             else split_from sep O (c :: cur) s'
      end
  end.

Definition split (sep s : text) : list text := split_from sep O [] s.

(** [s.splitlines()] *)
Fixpoint splitlines_from (cur : text) (s : text) : list text :=
  match s with
  | [] => match cur with [] => [] | _ => [rev cur] end
  | c :: s' =>
      if c =? CR then
        match s' with
        | d :: s'' =>
            if d =? LF then rev cur :: splitlines_from [] s''
            else rev cur :: splitlines_from [] s'
        | [] => [rev cur]
        end
      else if is_linebreak c then rev cur :: splitlines_from [] s'
      else splitlines_from (c :: cur) s'
  end.

Definition splitlines (s : text) : list text := splitlines_from [] s.

(** [s.lstrip()], [s.rstrip()] and [s.strip()] *)
Fixpoint lstrip (s : text) : text :=
  match s with
  | c :: s' => if isspace c then lstrip s' else s
  | [] => []
  end.

Definition rstrip (s : text) : text := rev (lstrip (rev s)).
Definition strip (s : text) : text := rstrip (lstrip s).

(** [sep.join(l)] *)
Fixpoint join (sep : text) (l : list text) : text :=
  match l with
  | [] => []
  | [x] => x
  | x :: l' => x ++ sep ++ join sep l'
  end.

(** [str(n)] for a Python integer. *)
Definition str_of_int (n : Z) : text :=
  str (NilZero.string_of_int (Z.to_int n)).

(** ** Regular expressions

    The fragment of [re] that [HEADER_RE] uses, with the matching order of a
    backtracking engine: a lazy star first tries the rest of the pattern and
    takes one more character only when that fails, a greedy star first takes
    one more character and gives it back when the rest fails. *)
Module Re.

Inductive item :=
| Bol                                (* ^ under re.M *)
| Chr (p : char -> bool)             (* one character of a class *)
| LazyStar (p : char -> bool)        (* [..]*? *)
| GreedyStar (p : char -> bool).     (* [..]* *)

Definition regex := list item.

(** [^] under re.M holds at the start of the string and after a newline;
    [prev] is the character before the current position. *)
Definition at_bol (prev : option char) : bool :=
  match prev with
  | None => true
  | Some c => c =? LF
  end.

(** [run r prev s] matches [r] at the start of [s] and gives the number of
    characters of the first match in backtracking order. *)
Fixpoint run (r : regex) : option char -> text -> option nat :=
  match r with
  | [] => fun _ _ => Some O
  | Bol :: r' => fun prev s => if at_bol prev then run r' prev s else None
  | Chr p :: r' => fun _ s =>
      match s with
      | c :: s' => if p c then S <$> run r' (Some c) s' else None
      | [] => None
      end
  | LazyStar p :: r' =>
      fix lazy (prev : option char) (s : text) : option nat :=
        match run r' prev s with
        | Some n => Some n
        | None =>
            match s with
            | c :: s' => if p c then S <$> lazy (Some c) s' else None
            | [] => None
            end
        end
  | GreedyStar p :: r' =>
      fix greedy (prev : option char) (s : text) : option nat :=
        match s with
        | c :: s' =>
            if p c then
              match greedy (Some c) s' with
              | Some n => Some (S n)
              | None => run r' prev s
              end
            else run r' prev s
        | [] => run r' prev s
        end
  end.

(** [pattern.match(s)]: the end of the match that starts at position 0. *)
Definition match_ (r : regex) (s : text) : option nat := run r None s.

Definition lit (c : char) : char -> bool := fun d => d =? c.
Definition space : char -> bool := isspace.                (* \s *)
Definition non_space : char -> bool := fun c => negb (isspace c). (* \S *)
Definition union (p q : char -> bool) : char -> bool :=
  fun c => p c || q c.

End Re.

(** [HEADER_RE = re.compile(r"^/\*[\s\S]*?\*/\s*", re.M)] *)
Definition HEADER_RE : Re.regex :=
  [ Re.Bol; Re.Chr (Re.lit 47); Re.Chr (Re.lit 42);
    Re.LazyStar (Re.union Re.space Re.non_space);
    Re.Chr (Re.lit 42); Re.Chr (Re.lit 47);
    Re.GreedyStar Re.space ].

(** ** Module constants *)

Definition AUTHOR : text := str "wuxiaoxiao".
Definition EMAIL : text := str "wuxiaoxiao@gmail.com".
Definition DATE_FMT : text := str "%Y-%m-%d %H:%M:%S".
Definition TARGET_EXTS : gset text := {[ str ".cpp"; str ".h"; str ".hpp" ]}.
Definition SKIP_DIRS : gset text :=
  {[ str "build"; str "bin"; str "CMakeFiles"; str "DispCtrl_autogen";
     str ".git"; str ".vscode" ]}.

(** ** The pure functions of the script *)

(** Truthiness of a [str] and the idiom [s or None]. *)
Definition or_None (s : text) : option text :=
  match s with
  | [] => None
  | _ => Some s
  end.

(** [x or ''] for an optional string. *)
Definition or_empty (x : option text) : text :=
  match x with
  | Some s => s
  | None => []
  end.

Definition normalize_datetime (dt : option text) : option text :=
  match dt with
  | None => None
  | Some [] => None
  | Some s => Some (strip (hd [] (split (str " +") s)))
  end.

Definition detect_eol (t : text) : text :=
  if contains [CR; LF] t
     && (count [CR; LF] t >=? count [LF] t - count [CR; LF] t)%Z
  then [CR; LF]
  else [LF].

(** The list [lines] of [build_header]. *)
Definition header_lines (date_created date_last : option text) : list text :=
  let dc := or_empty date_created in
  let dl := or_empty date_last in
  [ str "/*";
    str " * @Author: " ++ AUTHOR;
    str " * @Email: " ++ EMAIL;
    str " * @Date: " ++ dc;
    str " * @LastEditors: " ++ AUTHOR;
    str " * @LastEditTime: " ++ dl;
    str " * @Description: ";
    str " */";
    [] ].

Definition build_header (date_created date_last : option text) (eol : text)
  : text :=
  join eol (header_lines date_created date_last).

(** The test of line 131 on the matched block. *)
Definition has_marker (block : text) : bool :=
  contains (str "@Author") block || contains (str "Author:") block
  || contains (str "@LastEditTime") block
  || contains (str "LastEditTime") block.

(** Lines 126-138 of [update_file]: the pair [(new_text, replaced)]. *)
Definition splice (header orig : text) : text * bool :=
  match Re.match_ HEADER_RE orig with
  | Some e =>
      let block := take e orig in
      if has_marker block then (header ++ drop e orig, true)
      else (header ++ orig, false)
  | None => (header ++ orig, false)
  end.

(** ** Paths

    [pathlib.PurePosixPath]: whether the path starts at the root, and its
    components. Parsing drops empty components and [.]; [..] is kept and
    only resolved when the file system is consulted. *)

Record Path := MkPath { absolute : bool; parts : list text }.

#[global] Instance Path_eq_dec : EqDecision Path.
Proof. solve_decision. Defined.

(** [os.path.isabs(f)] on POSIX *)
Definition isabs (f : text) : bool := startswith (str "/") f.

(** [Path(f)] *)
Definition Path_of (f : text) : Path :=
  {| absolute := isabs f;
     parts := List.filter
                (fun c => negb (bool_decide (c = []))
                          && negb (bool_decide (c = str ".")))
                (split (str "/") f) |}.

(** [a / f] for a string [f] *)
Definition truediv (a : Path) (f : text) : Path :=
  let b := Path_of f in
  if absolute b then b
  else {| absolute := absolute a; parts := parts a ++ parts b |}.

(** [str(p)] *)
Definition path_str (p : Path) : text :=
  match absolute p, parts p with
  | false, [] => str "."
  | false, ps => join (str "/") ps
  | true, ps => str "/" ++ join (str "/") ps
  end.

(** [p.name] *)
Definition name (p : Path) : text := List.last (parts p) [].

(** [p.suffix]: the part of the name from its last dot, when that dot is
    neither the first nor the last character of the name. *)
Fixpoint rfind_dot (s : text) : option nat :=
  match s with
  | [] => None
  | c :: s' =>
      match rfind_dot s' with
      | Some i => Some (S i)
      | None => if c =? 46 then Some O else None
      end
  end.

Definition suffix (p : Path) : text :=
  let n := name p in
  match rfind_dot n with
  | Some i => if (0 <? i)%nat && (i <? pred (length n))%nat
              then drop i n else []
  | None => []
  end.

(** [p.parents], nearest first *)
Definition parents (p : Path) : list Path :=
  (fun k => {| absolute := absolute p; parts := take k (parts p) |})
    <$> rev (seq 0 (length (parts p))).

Definition should_skip (path : Path) : bool :=
  let names : gset text := list_to_set (name <$> parents path) in
  existsb (fun n => bool_decide (n ∈ SKIP_DIRS)) (elements names).

(** What the operating system does with the components of a path: [..]
    steps to the parent (the root is its own parent). The model has no
    symbolic links. *)
Fixpoint walk (acc : list text) (ps : list text) : list text :=
  match ps with
  | [] => rev acc
  | c :: ps' =>
      if bool_decide (c = str "..") then walk (tail acc) ps'
      else walk (c :: acc) ps'
  end.

(** ** The world *)

Inductive exn :=
| CalledProcessError
| FileNotFoundError
| PermissionError
| OSError
| IndexError.

(** [os.stat_result]: the two times the script reads, as exact numbers. *)
Record stat_result := { st_ctime : Z; st_mtime : Z }.

(** A regular file: its decoded text, what [stat] gives ([None] when the
    call fails), whether it can be opened for writing, and whether
    [os.chmod] on it is permitted. *)
Record file := MkFile {
  f_data : text;
  f_stat : option stat_result;
  f_writable : bool;
  f_chmod : bool
}.

Inductive event :=
| EvRead (p : Path)                 (* read_text was called on p *)
| EvWrite (p : Path) (t : text)     (* write_text stored t in p *)
| EvPrint (line : text).            (* a line on standard output *)

Record world := MkWorld {
  fs : gmap (list text) file;       (* regular files by resolved path *)
  proc : Path -> list text -> exn + text;
                                    (* check_output(argv, cwd): the decoded
                                       output, or the exception raised *)
  clock : Z;                        (* current time *)
  cwd : list text;                  (* working directory of the process *)
  trace : list event                (* what happened so far *)
}.

Definition set_fs (m : gmap (list text) file) (w : world) : world :=
  {| fs := m; proc := proc w; clock := clock w; cwd := cwd w;
     trace := trace w |}.

Definition log (e : event) (w : world) : world :=
  {| fs := fs w; proc := proc w; clock := clock w; cwd := cwd w;
     trace := trace w ++ [e] |}.

(** The key of a path in [fs]. *)
Definition locate (w : world) (p : Path) : list text :=
  walk [] (if absolute p then parts p else cwd w ++ parts p).

(** ** Computations: state and exceptions *)

Definition M (A : Type) : Type := world -> (exn + A) * world.

#[global] Instance M_ret : MRet M := fun A x w => (inr x, w).
#[global] Instance M_bind : MBind M := fun A B f m w =>
  match m w with
  | (inr x, w') => f x w'
  | (inl e, w') => (inl e, w')
  end.

Definition raise {A} (e : exn) : M A := fun w => (inl e, w).

(** [try: m  except <classes>: h] *)
Definition try_except {A} (m : M A) (catches : exn -> bool) (h : exn -> M A)
  : M A :=
  fun w =>
    match m w with
    | (inl e, w') => if catches e then h e w' else (inl e, w')
    | r => r
    end.

Definition Exception (e : exn) : bool := true.
Definition is_CalledProcessError (e : exn) : bool :=
  match e with CalledProcessError => true | _ => false end.
Definition is_PermissionError (e : exn) : bool :=
  match e with PermissionError => true | _ => false end.

(** *** Primitives of the standard library *)

(** [path.read_text(encoding='utf-8', errors='ignore')]. A file is held as
    the [str] that this call returns (after decoding and the newline
    handling of text mode), which is also what [write_text] is given; the
    properties below are about these texts. *)
Definition read_text (p : Path) : M text := fun w =>
  let w := log (EvRead p) w in
  match fs w !! locate w p with
  | Some f => (inr (f_data f), w)
  | None => (inl FileNotFoundError, w)
  end.

(** [path.write_text(t, encoding='utf-8')] *)
Definition write_text (p : Path) (t : text) : M unit := fun w =>
  match fs w !! locate w p with
  | Some f =>
      if f_writable f then
        (inr tt,
         log (EvWrite p t)
           (set_fs (<[locate w p :=
                      MkFile t (f_stat f) (f_writable f) (f_chmod f)]> (fs w))
                   w))
      else (inl PermissionError, w)
  | None =>
      (inr tt,
       log (EvWrite p t)
         (set_fs (<[locate w p := MkFile t None true true]> (fs w)) w))
  end.

(** [os.chmod(path, stat.S_IWRITE)] *)
Definition chmod_S_IWRITE (p : Path) : M unit := fun w =>
  match fs w !! locate w p with
  | Some f =>
      if f_chmod f then
        (inr tt,
         set_fs (<[locate w p := MkFile (f_data f) (f_stat f) true true]>
                   (fs w)) w)
      else (inl PermissionError, w)
  | None => (inl FileNotFoundError, w)
  end.

(** [path.stat()] *)
Definition stat (p : Path) : M stat_result := fun w =>
  match fs w !! locate w p with
  | Some f =>
      match f_stat f with
      | Some st => (inr st, w)
      | None => (inl OSError, w)
      end
  | None => (inl FileNotFoundError, w)
  end.

(** [path.is_file()] *)
Definition is_file (p : Path) : M bool := fun w =>
  (inr (bool_decide (is_Some (fs w !! locate w p))), w).

(** [subprocess.check_output(argv, cwd=str(cwd), stderr=DEVNULL)] followed
    by [.decode('utf-8', errors='ignore')] *)
Definition check_output (argv : list text) (cwd : Path) : M text := fun w =>
  match proc w cwd argv with
  | inr out => (inr out, w)
  | inl e => (inl e, w)
  end.

(** [datetime.now()] as a time stamp *)
Definition now : M Z := fun w => (inr (clock w), w).

(** [print(line)] *)
Definition print (line : text) : M unit := fun w =>
  (inr tt, log (EvPrint line) w).

(** ** The script *)

Section Script.

(** [datetime.fromtimestamp(ts).strftime('%Y-%m-%d %H:%M:%S')]: the local
    calendar rendering of a time stamp, fixed by the time zone of the
    machine. *)
Variable strftime : Z -> text.

(** [str(e)] for a caught exception. *)
Variable str_exn : exn -> text.

(** The components of [Path(__file__).resolve()]. *)
Variable script_file : list text.

(** [REPO_ROOT = Path(__file__).resolve().parents[1]] *)
Definition REPO_ROOT : Path :=
  default (MkPath true []) (parents (MkPath true script_file) !! 1%nat).

Definition run_git (args : list text) (cwd : Path) : M text :=
  try_except
    (out ← check_output (str "git" :: args) cwd; mret (strip out))
    is_CalledProcessError
    (fun _ => mret []).

(** The arguments of the two queries of [get_git_dates]. *)
Definition created_query (file_path : Path) : list text :=
  [str "log"; str "--diff-filter=A"; str "--follow"; str "--format=%ci";
   str "--"; path_str file_path].
Definition last_query (file_path : Path) : list text :=
  [str "log"; str "-1"; str "--format=%ci"; str "--"; path_str file_path].

Definition get_git_dates (file_path : Path)
  : M (option text * option text) :=
  created ← run_git (created_query file_path) REPO_ROOT;
  created ← match created with
            | [] => mret created
            | _ => match last (splitlines created) with
                   | Some l => mret l
                   | None => raise IndexError
                   end
            end;
  last ← run_git (last_query file_path) REPO_ROOT;
  mret (or_None created, or_None last).

Definition get_fs_dates (file_path : Path)
  : M (option text * option text) :=
  try_except
    (st ← stat file_path;
     let created_ts := Z.min (st_ctime st) (st_mtime st) in
     let modified_ts := st_mtime st in
     let created := strftime created_ts in
     let modified := strftime modified_ts in
     mret (Some created, Some modified))
    Exception
    (fun _ => mret (None, None)).

(** Lines 108-122 of [update_file]: the two time stamps of the header. *)
Definition derive_dates (path : Path) (mode : text)
  : M (option text * option text) :=
  '(created, last) ← get_git_dates path;
  let created := normalize_datetime created in
  let last := normalize_datetime last in
  '(created, last) ←
    (if bool_decide (created = None) || bool_decide (last = None) then
       '(fs_created, fs_last) ← get_fs_dates path;
       mret (match created with None => fs_created | _ => created end,
             match last with None => fs_last | _ => last end)
     else mret (created, last));
  last ← (if bool_decide (mode = str "commit")
          then t ← now; mret (Some (strftime t))
          else mret last);
  mret (created, last).

Definition update_file (path : Path) (mode : text) : M bool :=
  orig ← read_text path;
  let eol := detect_eol orig in
  '(created, last) ← derive_dates path mode;
  let header := build_header created last eol in
  let '(new_text, replaced) := splice header orig in
  if bool_decide (new_text ≠ orig) then
    try_except (write_text path new_text)
      is_PermissionError
      (fun _ =>
         try_except
           (chmod_S_IWRITE path;; write_text path new_text)
           Exception
           (fun e => raise e));;
    mret true
  else mret false.

(** [argparse.Namespace] as [parse_args] returns it. *)
Record Namespace := { files : list text; mode : text }.

(** [REPO_ROOT.rglob('*')]: every entry below the root; only regular
    files matter to the caller. *)
Definition rglob_all (w : world) : list Path :=
  MkPath true <$>
    List.filter
      (fun k => bool_decide (parts REPO_ROOT `prefix_of` k)
                && negb (bool_decide (k = parts REPO_ROOT)))
      (fst <$> map_to_list (fs w)).

Definition keep (p : Path) : M bool :=
  if bool_decide (suffix p ∈ TARGET_EXTS) then
    f ← is_file p;
    mret ((f : bool) && negb (should_skip p))
  else mret false.

Fixpoint filter_keep (ps : list Path) : M (list Path) :=
  match ps with
  | [] => mret []
  | p :: ps' =>
      k ← keep p;
      rest ← filter_keep ps';
      mret (if k : bool then p :: rest else rest)
  end.

Definition list_target_files (files : list text) : M (list Path) :=
  match files with
  | _ :: _ =>
      filter_keep
        ((fun f => if negb (isabs f) then truediv REPO_ROOT f
                   else Path_of f) <$> files)
  | [] => fun w => filter_keep (rglob_all w) w
  end.

(** The loop of [main]. *)
Fixpoint main_loop (mode : text) (files : list Path) (changed : Z) : M Z :=
  match files with
  | [] => mret changed
  | f :: files' =>
      changed ←
        try_except
          (b ← update_file f mode;
           mret (if b : bool then (changed + 1)%Z else changed))
          Exception
          (fun e =>
             print (str "[WARN] Failed updating " ++ path_str f
                    ++ str ": " ++ str_exn e);;
             mret changed);
      main_loop mode files' changed
  end.

(** [main] from the namespace that [parse_args] returns; the parsing of
    [argv] by [argparse] is not part of the model. *)
Definition main (args : Namespace) : M Z :=
  files ← list_target_files (files args);
  changed ← main_loop (mode args) files 0%Z;
  print (str "Updated headers in " ++ str_of_int changed
         ++ str " file(s)");;
  mret 0%Z.

(** ** Vocabulary of the specification *)

(** The warning and summary lines of [main]. *)
Definition warn_line (f : Path) (e : exn) : text :=
  str "[WARN] Failed updating " ++ path_str f ++ str ": " ++ str_exn e.

(** The files read, the files written and the lines printed in a trace. *)
Definition reads (tr : list event) : list Path :=
  omap (fun e => match e with EvRead p => Some p | _ => None end) tr.
Definition writes (tr : list event) : list (Path * text) :=
  omap (fun e => match e with EvWrite p t => Some (p, t) | _ => None end) tr.
Definition prints (tr : list event) : list text :=
  omap (fun e => match e with EvPrint l => Some l | _ => None end) tr.

(** The text stored at a path. *)
Definition content (w : world) (p : Path) : option text :=
  f_data <$> fs w !! locate w p.

(** The two dates that the file system gives for a path: both absent when
    [stat] fails. *)
Definition stat_dates (w : world) (p : Path) : option text * option text :=
  match fs w !! locate w p with
  | Some f =>
      match f_stat f with
      | Some st =>
          (Some (strftime (Z.min (st_ctime st) (st_mtime st))),
           Some (strftime (st_mtime st)))
      | None => (None, None)
      end
  | None => (None, None)
  end.


(** A computation that only consults the world: it leaves the world as it
    found it and its outcome does not depend on the trace. *)
Definition observer {A} (m : M A) : Prop :=
  forall w, snd (m w) = w /\ forall e, fst (m (log e w)) = fst (m w).

(** The number of white-space characters a text starts with. *)
Fixpoint span_space (s : text) : nat :=
  match s with
  | c :: s' => if isspace c then S (span_space s') else O
  | [] => O
  end.

(** [orig] begins with a block comment: the opening marker, a body that
    ends at the first closing marker after it, the white space [ws] that
    follows, and the remainder [rest], which does not start with white
    space. *)
Definition leading_block (orig body ws rest : text) : Prop :=
  orig = str "/*" ++ body ++ str "*/" ++ ws ++ rest
  /\ find (str "*/") (body ++ str "*/") = Some (length body)
  /\ forallb isspace ws = true
  /\ lstrip rest = rest.

(** [orig] has no leading block comment: it does not begin with the
    opening marker, or no closing marker follows it. *)
Definition no_leading_block (orig : text) : Prop :=
  startswith (str "/*") orig = false
  \/ contains (str "*/") (drop 2 orig) = false.

(** Line terminators counted one by one: CR LF pairs, and LF characters
    that do not follow a CR. *)
Fixpoint crlf_count (s : text) : nat :=
  match s with
  | c :: s' =>
      if (c =? CR) && match s' with d :: _ => d =? LF | [] => false end
      then S (crlf_count s') else crlf_count s'
  | [] => O
  end.

Fixpoint lone_lf_count (after_cr : bool) (s : text) : nat :=
  match s with
  | c :: s' =>
      if (c =? LF) && negb after_cr
      then S (lone_lf_count (c =? CR) s') else lone_lf_count (c =? CR) s'
  | [] => O
  end.

(** A header line [ * @Key: value] read back as its key and value. *)
Definition field_of_line (l : text) : option (text * text) :=
  if startswith (str " * @") l then
    let l' := drop 4 l in
    match find (str ": ") l' with
    | Some i => Some (take i l', drop (i + 2) l')
    | None => None
    end
  else None.

(** *** A concrete machine for the examples

    The rendering of [strftime] on a machine whose local time is UTC, with
    time stamps in seconds since the epoch. *)
Definition digits (width : nat) (n : Z) : text :=
  let d := str_of_int n in
  repeat 48 (width - length d) ++ d.

Definition strftime_utc (t : Z) : text :=
  let days := (t / 86400)%Z in
  let secs := (t mod 86400)%Z in
  let z := (days + 719468)%Z in
  let era := (z / 146097)%Z in
  let doe := (z - era * 146097)%Z in
  let yoe := ((doe - doe / 1460 + doe / 36524 - doe / 146096) / 365)%Z in
  let doy := (doe - (365 * yoe + yoe / 4 - yoe / 100))%Z in
  let mp := ((5 * doy + 2) / 153)%Z in
  let d := (doy - (153 * mp + 2) / 5 + 1)%Z in
  let m := (if mp <? 10 then mp + 3 else mp - 9)%Z in
  let y := (yoe + era * 400 + (if m <=? 2 then 1 else 0))%Z in
  digits 4 y ++ str "-" ++ digits 2 m ++ str "-" ++ digits 2 d ++ str " "
  ++ digits 2 (secs / 3600) ++ str ":" ++ digits 2 (secs mod 3600 / 60)
  ++ str ":" ++ digits 2 (secs mod 60).

Definition ex_script : list text :=
  [str "repo"; str "scripts"; str "update_headers.py"].
Definition ex_path : Path := MkPath true [str "repo"; str "widget.cpp"].
Definition ex_str_exn (e : exn) : text :=
  match e with
  | CalledProcessError => str "CalledProcessError"
  | FileNotFoundError => str "FileNotFoundError"
  | PermissionError => str "PermissionError"
  | OSError => str "OSError"
  | IndexError => str "IndexError"
  end.

(** A world with one file at [ex_path]; [git] is what every git query
    gives. *)
Definition ex_world (data : text) (st : option stat_result)
    (git : exn + text) (t : Z) : world :=
  {| fs := {[ parts ex_path := MkFile data st true true ]};
     proc := fun _ _ => git;
     clock := t;
     cwd := [str "home"];
     trace := [] |}.

(** Created 2024-01-01 10:00:00, modified 2024-01-02 09:00:00. *)
Definition ex_stat : stat_result :=
  {| st_ctime := 1704103200; st_mtime := 1704186000 |}.

Definition ex_git_stamp : text := str "2024-01-01 10:00:00 +0800".
Definition ex_stamp : option text := Some (str "2024-01-01 10:00:00").

Definition ex_foreign : text :=
  str "/* Licence */" ++ [LF] ++ str "int x;" ++ [LF].
Definition ex_plain : text := str "int x;" ++ [LF].
Definition ex_blank : text := [LF] ++ str "int x;" ++ [LF].

(** A tracked file, an untracked file, a file outside a repository (git
    exits with a non-zero status), and a machine without git. *)
Definition ex_tracked (data : text) : world :=
  ex_world data (Some ex_stat) (inr ex_git_stamp) 1700000000.
Definition ex_untracked (data : text) : world :=
  ex_world data (Some ex_stat) (inr []) 1700000000.
Definition ex_no_repo (data : text) : world :=
  ex_world data (Some ex_stat) (inl CalledProcessError) 1700000000.
Definition ex_no_git (data : text) : world :=
  ex_world data (Some ex_stat) (inl FileNotFoundError) 1700000000.
Definition ex_file (data : text) : file :=
  MkFile data (Some ex_stat) true true.


(** *** Further vocabulary *)

(** A text without CR and LF, such as a rendered time stamp. *)
Definition one_line (d : text) : bool :=
  forallb (fun c => negb (c =? CR) && negb (c =? LF)) d.

(** The directories on the way to a path: its components but the last. *)
Definition dirs (p : Path) : list text := removelast (parts p).

(** Lines that all end in CR LF, as one text. *)
Definition crlf_lines (ls : list text) : text :=
  concat ((fun l => l ++ [CR; LF]) <$> ls).

(** A world whose file at [ex_path] is read-only; [ch] tells whether
    [chmod] on it is permitted. *)
Definition ex_readonly (data : text) (ch : bool) : world :=
  {| fs := {[ parts ex_path := MkFile data (Some ex_stat) false ch ]};
     proc := fun _ _ => inr ex_git_stamp;
     clock := 1700000000;
     cwd := [str "home"];
     trace := [] |}.

(** A tracked file whose [stat] fails, and an untracked one. *)
Definition ex_no_stat (data : text) (git : exn + text) : world :=
  ex_world data None git 1700000000.

(** A second file beside [ex_path]. *)
Definition ex_other : Path := MkPath true [str "repo"; str "notes.txt"].
Definition ex_two_files (data : text) : world :=
  {| fs := {[ parts ex_path := ex_file data;
              parts ex_other := ex_file (str "keep me") ]};
     proc := fun _ _ => inr ex_git_stamp;
     clock := 1700000000;
     cwd := [str "home"];
     trace := [] |}.


(** The creation log of a file that was added twice (renamed), as git
    prints it: newest first. *)
Definition ex_log : text :=
  str "2024-03-05 08:00:00 +0100" ++ [LF]
  ++ str "2024-01-01 10:00:00 +0800" ++ [LF].
Definition ex_history (data : text) : world :=
  ex_world data (Some ex_stat) (inr ex_log) 1700000000.

(** ** Proof steps *)

(** Replace the string constants of the goal by their code points. *)
Ltac norm_str :=
  repeat match goal with
         | |- context [str ?s] =>
             let v := eval vm_compute in (str s) in change (str s) with v
         end.

(** Read the fields of a logged or updated world. *)
Ltac world_simpl :=
  repeat first
    [ progress change (fs (log ?e ?w)) with (fs w)
    | progress change (locate (log ?e ?w) ?p) with (locate w p)
    | progress change (locate (set_fs ?m ?w) ?p) with (locate w p)
    | progress change (fs (set_fs ?m ?w)) with m ].

(** ** Facts about strings *)

Lemma startswith_app (p s : text) : startswith p (p ++ s) = true.
Proof.
  induction p as [|a p IH]; simpl; [reflexivity|].
  now rewrite N.eqb_refl, IH.
Qed.

Lemma startswith_spec (p s : text) :
  startswith p s = true <-> exists t, s = p ++ t.
Proof.
  revert s; induction p as [|a p IH]; intros s; simpl.
  - split; [intros _; now exists s | reflexivity].
  - destruct s as [|b s].
    + split; [discriminate | intros [t Ht]; discriminate].
    + rewrite andb_true_iff, N.eqb_eq, IH. split.
      * intros [-> [t ->]]. now exists t.
      * intros [t Ht]. injection Ht as -> ->. split; [reflexivity | now exists t].
Qed.

Lemma find_None_contains (sub s : text) :
  find sub s = None <-> contains sub s = false.
Proof.
  induction s as [|c s IH]; simpl.
  - destruct (startswith sub []); simpl; split; congruence.
  - destruct (startswith sub (c :: s)); simpl; [split; congruence|].
    rewrite <- IH. destruct (find sub s); simpl; split; congruence.
Qed.

Lemma find_Some_contains (sub s : text) (k : nat) :
  find sub s = Some k -> contains sub s = true.
Proof.
  intros H. destruct (contains sub s) eqn:E; [reflexivity|].
  apply find_None_contains in E. congruence.
Qed.

Lemma contains_app_l (sub x y : text) :
  contains sub x = true -> contains sub (x ++ y) = true.
Proof.
  induction x as [|c x IH]; simpl.
  - rewrite orb_false_r. intros H.
    apply startswith_spec in H as [t Ht].
    destruct sub; [|discriminate]. now destruct y.
  - rewrite !orb_true_iff. intros [H|H].
    + left. apply startswith_spec in H as [t Ht].
      apply startswith_spec. exists (t ++ y).
      change (c :: x ++ y) with ((c :: x) ++ y).
      now rewrite Ht, <- app_assoc.
    + right. now apply IH.
Qed.

Lemma contains_app_r (sub x y : text) :
  contains sub y = true -> contains sub (x ++ y) = true.
Proof.
  intros H. induction x as [|c x IH]; simpl; [exact H|].
  rewrite IH. apply orb_true_r.
Qed.

Lemma lstrip_span (s : text) : lstrip s = drop (span_space s) s.
Proof.
  induction s as [|c s IH]; simpl; [reflexivity|].
  destruct (isspace c); simpl; [exact IH | reflexivity].
Qed.

Lemma span_space_app (ws rest : text) :
  forallb isspace ws = true -> lstrip rest = rest ->
  span_space (ws ++ rest) = length ws.
Proof.
  intros Hws Hrest. induction ws as [|c ws IH]; simpl in *.
  - destruct rest as [|c rest]; simpl in *; [reflexivity|].
    destruct (isspace c) eqn:E; [|reflexivity].
    exfalso. assert (Hlen : length (lstrip rest) = length (c :: rest))
      by now rewrite Hrest.
    rewrite lstrip_span, length_drop in Hlen. simpl in Hlen. lia.
  - apply andb_true_iff in Hws as [-> Hws]. now rewrite IH.
Qed.

Lemma span_space_forallb (s : text) :
  forallb isspace (take (span_space s) s) = true.
Proof.
  induction s as [|c s IH]; simpl; [reflexivity|].
  destruct (isspace c) eqn:E; simpl; [now rewrite E | reflexivity].
Qed.

Lemma lstrip_idem (s : text) : lstrip (lstrip s) = lstrip s.
Proof.
  induction s as [|c s IH]; simpl; [reflexivity|].
  destruct (isspace c) eqn:E; [exact IH | simpl; now rewrite E].
Qed.

(** ** The leading block comment matched by [HEADER_RE] *)

Lemma run_greedy_space (prev : option char) (s : text) :
  Re.run [Re.GreedyStar Re.space] prev s = Some (span_space s).
Proof.
  revert prev; induction s as [|c s IH]; intros prev; [reflexivity|].
  simpl in *. unfold Re.space at 1.
  destruct (isspace c); [now rewrite IH | reflexivity].
Qed.

Lemma run_close (prev : option char) (s : text) :
  Re.run [Re.Chr (Re.lit 42); Re.Chr (Re.lit 47); Re.GreedyStar Re.space]
         prev s
  = if startswith (str "*/") s
    then Some (2 + span_space (drop 2 s))%nat else None.
Proof.
  norm_str. destruct s as [|a [|b s]]; simpl; unfold Re.lit.
  - reflexivity.
  - destruct (a =? 42); reflexivity.
  - destruct (a =? 42); [|reflexivity]. destruct (b =? 47); [|reflexivity].
    simpl. pose proof (run_greedy_space (Some b) s) as H. simpl in H.
    now rewrite H.
Qed.

Lemma run_lazy_any (prev : option char) (s : text) :
  Re.run [Re.LazyStar (Re.union Re.space Re.non_space);
          Re.Chr (Re.lit 42); Re.Chr (Re.lit 47); Re.GreedyStar Re.space]
         prev s
  = match find (str "*/") s with
    | Some k => Some (k + 2 + span_space (drop (k + 2) s))%nat
    | None => None
    end.
Proof.
  revert prev; induction s as [|c s IH]; intros prev.
  - reflexivity.
  - change (Re.run [Re.LazyStar (Re.union Re.space Re.non_space);
                    Re.Chr (Re.lit 42); Re.Chr (Re.lit 47);
                    Re.GreedyStar Re.space] prev (c :: s))
      with (match Re.run [Re.Chr (Re.lit 42); Re.Chr (Re.lit 47);
                          Re.GreedyStar Re.space] prev (c :: s) with
            | Some n => Some n
            | None =>
                if Re.union Re.space Re.non_space c
                then S <$> Re.run [Re.LazyStar (Re.union Re.space Re.non_space);
                                   Re.Chr (Re.lit 42); Re.Chr (Re.lit 47);
                                   Re.GreedyStar Re.space] (Some c) s
                else None
            end).
    rewrite run_close, IH.
    change (find (str "*/") (c :: s))
      with (if startswith (str "*/") (c :: s) then Some O
            else S <$> find (str "*/") s).
    destruct (startswith (str "*/") (c :: s)); [reflexivity|].
    assert (Hany : Re.union Re.space Re.non_space c = true).
    { unfold Re.union, Re.space, Re.non_space. now destruct (isspace c). }
    rewrite Hany. destruct (find (str "*/") s); reflexivity.
Qed.

(** [HEADER_RE.match] in closed form: the text starts with the opening
    marker, the match runs to the first closing marker after it and on
    through the white space that follows. *)
Lemma HEADER_RE_match (s : text) :
  Re.match_ HEADER_RE s
  = if startswith (str "/*") s then
      match find (str "*/") (drop 2 s) with
      | Some k => Some (2 + (k + 2 + span_space (drop (k + 2) (drop 2 s))))%nat
      | None => None
      end
    else None.
Proof.
  unfold Re.match_, HEADER_RE.
  destruct s as [|a [|b s]]; try reflexivity.
  - norm_str. simpl. unfold Re.lit. destruct (a =? 47); reflexivity.
  - change (Re.run _ None (a :: b :: s))
      with (if Re.lit 47 a then
              S <$> (if Re.lit 42 b then
                       S <$> Re.run [Re.LazyStar (Re.union Re.space Re.non_space);
                                     Re.Chr (Re.lit 42); Re.Chr (Re.lit 47);
                                     Re.GreedyStar Re.space] (Some b) s
                     else None)
            else None).
    rewrite run_lazy_any. unfold Re.lit. norm_str.
    change (drop 2 (a :: b :: s)) with s.
    change (startswith [47; 42] (a :: b :: s))
      with ((a =? 47) && ((b =? 42) && true)).
    destruct (a =? 47); [|reflexivity]. destruct (b =? 42); [|reflexivity].
    destruct (find [42; 47] s); reflexivity.
Qed.


Lemma startswith_length (p s : text) :
  startswith p s = true -> (length p <= length s)%nat.
Proof.
  intros H. apply startswith_spec in H as [t ->].
  rewrite length_app. lia.
Qed.

Lemma startswith_app_long (p x y : text) :
  (length p <= length x)%nat -> startswith p (x ++ y) = startswith p x.
Proof.
  revert x; induction p as [|a p IH]; intros x Hlen; [reflexivity|].
  destruct x as [|b x]; simpl in *; [lia|].
  rewrite IH by lia. reflexivity.
Qed.

Lemma find_Some_length (sub s : text) (k : nat) :
  find sub s = Some k -> (k + length sub <= length s)%nat.
Proof.
  revert k; induction s as [|c s IH]; intros k; simpl.
  - destruct (startswith sub []) eqn:E; [|discriminate].
    intros [= <-]. apply startswith_length in E. simpl in *. lia.
  - destruct (startswith sub (c :: s)) eqn:E.
    + intros [= <-]. apply startswith_length in E. simpl in *. lia.
    + destruct (find sub s) as [j|]; [|discriminate].
      intros [= <-]. specialize (IH j eq_refl). simpl. lia.
Qed.

Lemma find_app_Some (sub x y : text) (k : nat) :
  find sub x = Some k -> find sub (x ++ y) = Some k.
Proof.
  revert k; induction x as [|c x IH]; intros k Hf.
  - pose proof (find_Some_length _ _ _ Hf) as Hlen. simpl in Hlen.
    destruct sub; [|simpl in Hlen; lia].
    simpl in Hf. injection Hf as <-. now destruct y.
  - pose proof (find_Some_length _ _ _ Hf) as Hlen.
    simpl in Hf. change ((c :: x) ++ y) with (c :: x ++ y).
    change (find sub (c :: x ++ y))
      with (if startswith sub (c :: x ++ y) then Some O
            else S <$> find sub (x ++ y)).
    destruct (startswith sub (c :: x)) eqn:E.
    + injection Hf as <-.
      change (c :: x ++ y) with ((c :: x) ++ y).
      rewrite startswith_app_long, E by lia. reflexivity.
    + destruct (find sub x) as [j|] eqn:Ej; [|discriminate].
      injection Hf as <-.
      change (c :: x ++ y) with ((c :: x) ++ y).
      rewrite startswith_app_long, E by (simpl in *; lia).
      now rewrite (IH j eq_refl).
Qed.

Lemma find_Some_split (sub s : text) (k : nat) :
  find sub s = Some k ->
  s = take k s ++ sub ++ drop (k + length sub) s
  /\ find sub (take k s ++ sub) = Some k.
Proof.
  revert k; induction s as [|c s IH]; intros k; simpl.
  - destruct (startswith sub []) eqn:E; [|discriminate].
    intros [= <-]. apply startswith_length in E.
    destruct sub; [|simpl in E; lia]. split; reflexivity.
  - destruct (startswith sub (c :: s)) eqn:E.
    + intros [= <-]. simpl. apply startswith_spec in E as E'.
      destruct E' as [t Ht]. split.
      * rewrite Ht at 1. f_equal. rewrite Ht.
        now rewrite drop_app_length.
      * destruct sub as [|a sub]; [reflexivity|].
        change (find (a :: sub) (a :: sub))
          with (if startswith (a :: sub) (a :: sub) then Some O
                else S <$> find (a :: sub) sub).
        pose proof (startswith_app (a :: sub) []) as Hs.
        rewrite app_nil_r in Hs. now rewrite Hs.
    + destruct (find sub s) as [j|] eqn:Ej; [|discriminate].
      intros [= <-]. destruct (IH j eq_refl) as [Hs Hf]. split.
      * simpl. f_equal. exact Hs.
      * change (take (S j) (c :: s) ++ sub) with (c :: take j s ++ sub).
        change (find sub (c :: take j s ++ sub))
          with (if startswith sub (c :: take j s ++ sub) then Some O
                else S <$> find sub (take j s ++ sub)).
        rewrite Hf.
        assert (Hst : startswith sub (c :: take j s ++ sub) = false).
        { assert (Hcs : c :: s = (c :: take j s ++ sub)
                                 ++ drop (j + length sub) s).
          { simpl. f_equal. rewrite <- app_assoc. exact Hs. }
          rewrite Hcs in E. rewrite startswith_app_long in E; [exact E|].
          simpl. rewrite length_app. lia. }
        now rewrite Hst.
Qed.

(** A leading block is what [HEADER_RE] matches, through its white
    space. *)
Lemma leading_block_match (orig body ws rest : text) :
  leading_block orig body ws rest ->
  Re.match_ HEADER_RE orig
  = Some (length (str "/*" ++ body ++ str "*/" ++ ws))
  /\ take (length (str "/*" ++ body ++ str "*/" ++ ws)) orig
     = str "/*" ++ body ++ str "*/" ++ ws
  /\ drop (length (str "/*" ++ body ++ str "*/" ++ ws)) orig = rest.
Proof.
  intros (-> & Hfind & Hws & Hrest).
  assert (Hassoc : str "/*" ++ body ++ str "*/" ++ ws ++ rest
                   = (str "/*" ++ body ++ str "*/" ++ ws) ++ rest)
    by now rewrite <- !app_assoc.
  split; [|split].
  - rewrite HEADER_RE_match.
    rewrite startswith_app.
    change (drop 2 (str "/*" ++ body ++ str "*/" ++ ws ++ rest))
      with (body ++ str "*/" ++ ws ++ rest).
    rewrite (app_assoc body (str "*/") (ws ++ rest)).
    rewrite (find_app_Some _ _ (ws ++ rest) _ Hfind).
    rewrite <- app_assoc.
    rewrite (app_assoc body (str "*/") (ws ++ rest)).
    replace (length body + 2)%nat with (length (body ++ str "*/"))
      by (rewrite length_app; reflexivity).
    rewrite drop_app_length, span_space_app by assumption.
    f_equal. rewrite !length_app. simpl. lia.
  - rewrite Hassoc. now rewrite take_app_length.
  - rewrite Hassoc. now rewrite drop_app_length.
Qed.

Lemma no_leading_block_match (orig : text) :
  no_leading_block orig -> Re.match_ HEADER_RE orig = None.
Proof.
  intros [H|H]; rewrite HEADER_RE_match.
  - now rewrite H.
  - apply find_None_contains in H. rewrite H.
    now destruct (startswith (str "/*") orig).
Qed.

(** Every text either has a leading block or has none. *)
Lemma leading_block_cases (orig : text) :
  no_leading_block orig
  \/ exists body ws rest, leading_block orig body ws rest.
Proof.
  destruct (startswith (str "/*") orig) eqn:Es; [|left; now left].
  destruct (find (str "*/") (drop 2 orig)) as [k|] eqn:Ef.
  - right. apply startswith_spec in Es as [t ->].
    change (drop 2 (str "/*" ++ t)) with t in Ef.
    destruct (find_Some_split _ _ _ Ef) as [Ht Hf].
    set (tl := drop (k + length (str "*/")) t) in *.
    exists (take k t), (take (span_space tl) tl), (lstrip tl).
    assert (Hk : length (take k t) = k).
    { apply length_take_le. apply find_Some_length in Ef. lia. }
    repeat split.
    + rewrite Ht at 1. do 3 f_equal.
      rewrite lstrip_span. now rewrite take_drop.
    + now rewrite Hk.
    + apply span_space_forallb.
    + apply lstrip_idem.
  - left; right. now apply find_None_contains.
Qed.


(** ** Computations that only observe *)

Lemma observer_ret {A} (x : A) : observer (mret x : M A).
Proof. intros w. split; [reflexivity | intros e; reflexivity]. Qed.

Lemma observer_raise {A} (e : exn) : observer (raise e : M A).
Proof. intros w. split; [reflexivity | intros e'; reflexivity]. Qed.

Lemma observer_bind {A B} (m : M A) (k : A -> M B) :
  observer m -> (forall x, observer (k x)) -> observer (m ≫= k).
Proof.
  intros Hm Hk w. unfold mbind, M_bind.
  destruct (Hm w) as [Hs Ht]. split.
  - destruct (m w) as [[e|x] w'] eqn:E; simpl in *; subst w'.
    + reflexivity.
    + apply Hk.
  - intros e. specialize (Ht e).
    destruct (Hm (log e w)) as [Hs' _].
    destruct (m w) as [[e1|x] w'] eqn:E;
      destruct (m (log e w)) as [[e2|y] w''] eqn:E';
      simpl in *; subst; try discriminate.
    + now injection Ht as ->.
    + injection Ht as ->. apply Hk.
Qed.

Lemma observer_try {A} (m : M A) (c : exn -> bool) (h : exn -> M A) :
  observer m -> (forall e, observer (h e)) -> observer (try_except m c h).
Proof.
  intros Hm Hh w. unfold try_except.
  destruct (Hm w) as [Hs Ht]. split.
  - destruct (m w) as [[e|x] w'] eqn:E; simpl in *; subst w'.
    + destruct (c e); [apply Hh | reflexivity].
    + reflexivity.
  - intros e. specialize (Ht e).
    destruct (Hm (log e w)) as [Hs' _].
    destruct (m w) as [[e1|x] w'] eqn:E;
      destruct (m (log e w)) as [[e2|y] w''] eqn:E';
      simpl in *; subst; try discriminate.
    + injection Ht as ->. destruct (c e1); [apply Hh | reflexivity].
    + exact Ht.
Qed.

Lemma observer_check_output (argv : list text) (d : Path) :
  observer (check_output argv d).
Proof.
  intros w. unfold check_output. simpl.
  split; [|intros e]; destruct (proc w d argv); reflexivity.
Qed.

Lemma observer_stat (p : Path) : observer (stat p).
Proof.
  intros w. unfold stat, locate. simpl.
  split; [|intros e]; destruct (fs w !! _) as [f|]; try reflexivity;
    destruct (f_stat f); reflexivity.
Qed.

Lemma observer_now : observer now.
Proof. intros w. split; [|intros e]; reflexivity. Qed.

Lemma observer_run_git (args : list text) (d : Path) :
  observer (run_git args d).
Proof.
  apply observer_try.
  - apply observer_bind; [apply observer_check_output|].
    intros out. apply observer_ret.
  - intros e. apply observer_ret.
Qed.

Lemma observer_get_git_dates (p : Path) : observer (get_git_dates p).
Proof.
  apply observer_bind; [apply observer_run_git|]. intros created.
  apply observer_bind.
  - destruct created; [apply observer_ret|].
    destruct (last _); [apply observer_ret | apply observer_raise].
  - intros c. apply observer_bind; [apply observer_run_git|].
    intros l. apply observer_ret.
Qed.

Lemma observer_get_fs_dates (p : Path) : observer (get_fs_dates p).
Proof.
  apply observer_try.
  - apply observer_bind; [apply observer_stat|].
    intros st. apply observer_ret.
  - intros e. apply observer_ret.
Qed.

Lemma observer_derive_dates (p : Path) (mode : text) :
  observer (derive_dates p mode).
Proof.
  apply observer_bind; [apply observer_get_git_dates|]. intros [c l].
  apply observer_bind.
  - destruct (_ || _); [|apply observer_ret].
    apply observer_bind; [apply observer_get_fs_dates|].
    intros [fc fl]. apply observer_ret.
  - intros [c' l']. apply observer_bind.
    + destruct (bool_decide _); [|apply observer_ret].
      apply observer_bind; [apply observer_now|].
      intros t. apply observer_ret.
    + intros l''. apply observer_ret.
Qed.

(** An observer's run, from its outcome. *)
Lemma observer_run {A} (m : M A) (w : world) (e : event) :
  observer m ->
  m w = (fst (m w), w) /\ m (log e w) = (fst (m w), log e w).
Proof.
  intros Hm. destruct (Hm w) as [Hs Ht].
  destruct (Hm (log e w)) as [Hs' _]. specialize (Ht e). split.
  - destruct (m w); simpl in *; now subst.
  - destruct (m (log e w)); simpl in *; now subst.
Qed.

(** ** One run of [update_file] *)

(** The run of [update_file] on an existing file whose time stamps were
    derived: nothing is written when the composed text equals the
    original; otherwise the text is stored, after [chmod] when the file
    was read-only, and the run fails when neither is permitted. *)
Lemma update_file_run (path : Path) (mode : text) (w : world) (f : file)
    (created last : option text) :
  fs w !! locate w path = Some f ->
  fst (derive_dates path mode w) = inr (created, last) ->
  update_file path mode w =
    let orig := f_data f in
    let new := fst (splice (build_header created last (detect_eol orig))
                           orig) in
    if bool_decide (new ≠ orig) then
      if f_writable f || f_chmod f then
        (inr true,
         log (EvWrite path new)
           (set_fs (<[locate w path :=
                      MkFile new (f_stat f) true
                             (f_chmod f || negb (f_writable f))]> (fs w))
                   (log (EvRead path) w)))
      else (inl PermissionError, log (EvRead path) w)
    else (inr false, log (EvRead path) w).
Proof.
  intros Hf Hd.
  destruct (observer_run (derive_dates path mode) w (EvRead path)
              (observer_derive_dates path mode)) as [_ Hrun].
  rewrite Hd in Hrun.
  unfold update_file, mbind, M_bind, read_text. world_simpl.
  rewrite Hf, Hrun. cbv zeta.
  destruct (splice _ (f_data f)) as [new replaced] eqn:Esp.
  cbn [fst]. destruct (bool_decide (new ≠ f_data f)); [|reflexivity].
  unfold try_except, write_text, chmod_S_IWRITE, mbind, M_bind.
  world_simpl.
  rewrite Hf. destruct (f_writable f) eqn:Ew; cbn [orb negb].
  - rewrite orb_false_r. reflexivity.
  - cbn [is_PermissionError]. world_simpl. rewrite Hf.
    destruct (f_chmod f) eqn:Ec; [|reflexivity].
    world_simpl. rewrite lookup_insert_eq. cbn [f_writable Exception].
    unfold mret, M_ret. f_equal. unfold log, set_fs. cbn.
    f_equal. apply insert_insert_eq.
Qed.




Lemma content_after_write (w : world) (path : Path) (new : text)
    (st : option stat_result) (wr ch : bool) (e1 e2 : event) :
  content
    (log e2 (set_fs (<[locate w path := MkFile new st wr ch]> (fs w))
                    (log e1 w)))
    path = Some new.
Proof.
  unfold content. world_simpl. now rewrite lookup_insert_eq.
Qed.




(** ** Line terminators *)

Lemma count_from_crlf (s : text) :
  count_from [CR; LF] O s = crlf_count s.
Proof.
  induction s as [|c s IH]; [reflexivity|].
  change (count_from [CR; LF] 0 (c :: s))
    with (if startswith [CR; LF] (c :: s)
          then S (count_from [CR; LF] 1 s)
          else count_from [CR; LF] 0 s).
  destruct s as [|d s].
  - simpl. now rewrite andb_false_r.
  - change (startswith [CR; LF] (c :: d :: s))
      with ((c =? CR) && ((d =? LF) && true)).
    change (crlf_count (c :: d :: s))
      with (if (c =? CR) && (d =? LF) then S (crlf_count (d :: s))
            else crlf_count (d :: s)).
    rewrite andb_true_r.
    destruct ((c =? CR) && (d =? LF)) eqn:E; [|exact IH].
    f_equal. apply andb_true_iff in E as [_ Hd%N.eqb_eq]. subst d.
    change (count_from [CR; LF] 1 (LF :: s))
      with (count_from [CR; LF] 0 s).
    exact IH.
Qed.

Lemma count_from_lf (b : bool) (s : text) :
  count_from [LF] O s
  = Nat.add (crlf_count s + lone_lf_count b s)%nat
      (if b && match s with d :: _ => d =? LF | [] => false end
       then 1%nat else 0%nat).
Proof.
  revert b; induction s as [|c s IH]; intros b.
  - simpl. now rewrite andb_false_r.
  - change (count_from [LF] 0 (c :: s))
      with (if (c =? LF) && true
            then S (count_from [LF] 0 s) else count_from [LF] 0 s).
    change (lone_lf_count b (c :: s))
      with (if (c =? LF) && negb b
            then S (lone_lf_count (c =? CR) s)
            else lone_lf_count (c =? CR) s).
    change (crlf_count (c :: s))
      with (if (c =? CR) && match s with d :: _ => d =? LF | [] => false end
            then S (crlf_count s) else crlf_count s).
    rewrite (IH (c =? CR)), andb_true_r.
    destruct (c =? LF) eqn:Elf.
    + apply N.eqb_eq in Elf. subst c.
      change (LF =? CR) with false. cbn [andb].
      destruct b; cbn [negb andb]; lia.
    + cbn [andb]. rewrite andb_false_r.
      destruct ((c =? CR) && _); lia.
Qed.

Lemma contains_crlf (s : text) :
  contains [CR; LF] s = (0 <? crlf_count s)%nat.
Proof.
  induction s as [|c s IH]; [reflexivity|].
  change (contains [CR; LF] (c :: s))
    with (startswith [CR; LF] (c :: s) || contains [CR; LF] s).
  rewrite IH. destruct s as [|d s].
  - simpl. now rewrite andb_false_r.
  - change (startswith [CR; LF] (c :: d :: s))
      with ((c =? CR) && ((d =? LF) && true)).
    change (crlf_count (c :: d :: s))
      with (if (c =? CR) && (d =? LF) then S (crlf_count (d :: s))
            else crlf_count (d :: s)).
    rewrite andb_true_r. destruct ((c =? CR) && (d =? LF)); reflexivity.
Qed.


(** ** Time stamps of git *)

Lemma split_from_no_sep (sep s cur : text) :
  contains sep s = false -> split_from sep O cur s = [rev cur ++ s].
Proof.
  revert cur; induction s as [|c s IH]; intros cur Hc.
  - simpl. now rewrite app_nil_r.
  - change (contains sep (c :: s))
      with (startswith sep (c :: s) || contains sep s) in Hc.
    apply orb_false_iff in Hc as [Hs Hc].
    change (split_from sep 0 cur (c :: s))
      with (if startswith sep (c :: s)
            then rev cur :: split_from sep (pred (length sep)) [] s
            else split_from sep 0 (c :: cur) s).
    rewrite Hs, (IH (c :: cur) Hc). simpl. now rewrite <- app_assoc.
Qed.

Lemma split_from_hd (sep s cur : text) (k : nat) :
  sep ≠ [] -> find sep s = Some k ->
  hd [] (split_from sep O cur s) = rev cur ++ take k s.
Proof.
  intros Hsep. revert cur k; induction s as [|c s IH]; intros cur k Hf.
  - apply find_Some_length in Hf. destruct sep; [congruence|].
    simpl in Hf. lia.
  - change (split_from sep 0 cur (c :: s))
      with (if startswith sep (c :: s)
            then rev cur :: split_from sep (pred (length sep)) [] s
            else split_from sep 0 (c :: cur) s).
    simpl in Hf. destruct (startswith sep (c :: s)).
    + injection Hf as <-. simpl. now rewrite app_nil_r.
    + destruct (find sep s) as [j|] eqn:Ej; [|discriminate].
      injection Hf as <-. rewrite (IH (c :: cur) j eq_refl).
      simpl. now rewrite <- app_assoc.
Qed.

(** [normalize_datetime] on a non-empty string: the text before the first
    occurrence of [" +"], or the whole string when there is none, without
    the white space around it. Only an offset written with a plus sign is
    cut off. *)
Lemma normalize_datetime_eq (s : text) :
  s ≠ [] ->
  normalize_datetime (Some s)
  = Some (strip match find (str " +") s with
                | Some k => take k s
                | None => s
                end).
Proof.
  intros Hs. unfold normalize_datetime. destruct s as [|c s]; [congruence|].
  f_equal. f_equal. unfold split.
  destruct (find (str " +") (c :: s)) as [k|] eqn:Ef.
  - now rewrite (split_from_hd _ _ [] k) by (auto; discriminate).
  - apply find_None_contains in Ef. now rewrite split_from_no_sep.
Qed.

(** C5 at a negative offset: the offset is not removed. *)
Theorem normalize_datetime_negative_offset :
  normalize_datetime (Some (str "2024-01-01 10:00:00 -0500"))
  = Some (str "2024-01-01 10:00:00 -0500").
Proof. reflexivity. Qed.

(** ** The header *)

Lemma build_header_eq (created edited : option text) (eol : text) :
  build_header created edited eol
  = str "/*" ++ eol
    ++ str " * @Author: wuxiaoxiao" ++ eol
    ++ str " * @Email: wuxiaoxiao@gmail.com" ++ eol
    ++ (str " * @Date: " ++ or_empty created) ++ eol
    ++ str " * @LastEditors: wuxiaoxiao" ++ eol
    ++ (str " * @LastEditTime: " ++ or_empty edited) ++ eol
    ++ str " * @Description: " ++ eol
    ++ str " */" ++ eol.
Proof.
  unfold build_header, header_lines, join. now rewrite app_nil_r.
Qed.

(** C9. Whatever the two time stamps and the line terminator, the header
    has the same nine lines: the opening line, the fields Author, Email,
    Date, LastEditors, LastEditTime and Description in this order, the
    closing line and the final terminator; an absent time stamp gives the
    field with an empty value. *)
Theorem build_header_fields (created last : option text) (eol : text) :
  build_header created last eol
  = str "/*" ++ eol
    ++ str " * @Author: wuxiaoxiao" ++ eol
    ++ str " * @Email: wuxiaoxiao@gmail.com" ++ eol
    ++ (str " * @Date: " ++ or_empty created) ++ eol
    ++ str " * @LastEditors: wuxiaoxiao" ++ eol
    ++ (str " * @LastEditTime: " ++ or_empty last) ++ eol
    ++ str " * @Description: " ++ eol
    ++ str " */" ++ eol
  /\ omap field_of_line (header_lines created last)
     = [ (str "Author", AUTHOR); (str "Email", EMAIL);
         (str "Date", or_empty created); (str "LastEditors", AUTHOR);
         (str "LastEditTime", or_empty last); (str "Description", []) ]
  /\ length (header_lines created last) = 9%nat
  /\ build_header None last eol = build_header (Some []) last eol
  /\ build_header created None eol = build_header created (Some []) eol.
Proof.
  split; [apply build_header_eq|]. repeat split.
Qed.

(** ** Running twice *)

Lemma find_close_app (x y : text) :
  contains (str "*/") x = false ->
  last x ≠ Some 42 \/ head y ≠ Some 47 ->
  find (str "*/") (x ++ y) = (fun k => length x + k)%nat <$> find (str "*/") y.
Proof.
  norm_str. induction x as [|c x IH]; intros Hc Hb.
  - simpl. now destruct (find [42; 47] y).
  - change (contains [42; 47] (c :: x))
      with (startswith [42; 47] (c :: x) || contains [42; 47] x) in Hc.
    apply orb_false_iff in Hc as [Hs Hc].
    change ((c :: x) ++ y) with (c :: x ++ y).
    change (find [42; 47] (c :: x ++ y))
      with (if startswith [42; 47] (c :: x ++ y) then Some O
            else S <$> find [42; 47] (x ++ y)).
    assert (Hst : startswith [42; 47] (c :: x ++ y) = false).
    { destruct x as [|d x].
      - destruct y as [|e y]; simpl; [now rewrite andb_false_r|].
        rewrite andb_true_r.
        destruct (c =? 42) eqn:Ec; [|reflexivity].
        destruct (e =? 47) eqn:Ee; [|reflexivity].
        apply N.eqb_eq in Ec, Ee. subst.
        destruct Hb as [Hb|Hb]; now elim Hb.
      - change (c :: (d :: x) ++ y) with ((c :: d :: x) ++ y).
        rewrite startswith_app_long; [exact Hs | simpl; lia]. }
    rewrite Hst, IH.
    + destruct (find [42; 47] y); reflexivity.
    + exact Hc.
    + destruct Hb as [Hb|Hb]; [|now right].
      left. destruct x as [|d x]; [discriminate | exact Hb].
Qed.


(** The header as an opening marker, a body around the two time stamps,
    the closing marker and the terminator. *)
Lemma header_pieces (created last : option text) (eol : text) :
  build_header created last eol
  = str "/*"
    ++ ((eol ++ str " * @Author: wuxiaoxiao" ++ eol
         ++ str " * @Email: wuxiaoxiao@gmail.com" ++ eol
         ++ str " * @Date: ")
        ++ or_empty created
        ++ (eol ++ str " * @LastEditors: wuxiaoxiao" ++ eol
            ++ str " * @LastEditTime: ")
        ++ or_empty last
        ++ (eol ++ str " * @Description: " ++ eol ++ str " "))
    ++ str "*/" ++ eol.
Proof.
  rewrite build_header_eq.
  change (str " */") with (str " " ++ str "*/").
  now rewrite <- !app_assoc.
Qed.

(** A header built with LF or CR LF from time stamps without a closing
    marker, followed by text that does not start with white space, is a
    leading block that ends with the header and carries a marker. *)
Lemma header_is_leading_block (created edited : option text)
    (eol rest : text) :
  eol = [LF] \/ eol = [CR; LF] ->
  contains (str "*/") (or_empty created) = false ->
  contains (str "*/") (or_empty edited) = false ->
  lstrip rest = rest ->
  let h := build_header created edited eol in
  Re.match_ HEADER_RE (h ++ rest) = Some (length h)
  /\ take (length h) (h ++ rest) = h
  /\ drop (length h) (h ++ rest) = rest
  /\ has_marker h = true.
Proof.
  intros Heol Hc Hl Hrest h.
  set (q1 := eol ++ str " * @Author: wuxiaoxiao" ++ eol
             ++ str " * @Email: wuxiaoxiao@gmail.com" ++ eol
             ++ str " * @Date: ").
  set (q2 := eol ++ str " * @LastEditors: wuxiaoxiao" ++ eol
             ++ str " * @LastEditTime: ").
  set (q3 := eol ++ str " * @Description: " ++ eol ++ str " ").
  set (hbody := q1 ++ or_empty created ++ q2 ++ or_empty edited ++ q3).
  assert (Hh : h = str "/*" ++ hbody ++ str "*/" ++ eol)
    by apply header_pieces.
  assert (Hblock : leading_block (h ++ rest) hbody eol rest).
  { repeat split.
    - rewrite Hh. now rewrite <- !app_assoc.
    - unfold hbody. rewrite <- !app_assoc.
      assert (Hq : contains (str "*/") q1 = false /\ last q1 ≠ Some 42
                   /\ contains (str "*/") q2 = false /\ last q2 ≠ Some 42
                   /\ contains (str "*/") q3 = false /\ last q3 ≠ Some 42
                   /\ head (q2 ++ or_empty edited ++ q3 ++ str "*/") ≠ Some 47
                   /\ head (q3 ++ str "*/") ≠ Some 47).
      { unfold q1, q2, q3.
        destruct Heol as [-> | ->]; repeat split; discriminate. }
      destruct Hq as (H1 & L1 & H2 & L2 & H3 & L3 & B2 & B3).
      rewrite (find_close_app q1) by (auto).
      rewrite (find_close_app (or_empty created)) by (auto).
      rewrite (find_close_app q2) by (auto).
      rewrite (find_close_app (or_empty edited)) by (auto).
      rewrite (find_close_app q3) by (auto).
      simpl. f_equal. rewrite !length_app. lia.
    - destruct Heol as [-> | ->]; reflexivity.
    - exact Hrest. }
  destruct (leading_block_match _ _ _ _ Hblock) as (Hm & Htake & Hdrop).
  rewrite <- Hh in Hm, Htake, Hdrop. repeat split; try assumption.
  unfold has_marker. rewrite Hh.
  assert (Ha : contains (str "@Author") (str "/*" ++ hbody ++ str "*/" ++ eol)
               = true).
  { apply contains_app_r, contains_app_l. unfold hbody.
    apply contains_app_l. unfold q1.
    apply contains_app_r, contains_app_l. reflexivity. }
  now rewrite Ha.
Qed.

Lemma splice_header_prefix (header orig : text) :
  exists rest, fst (splice header orig) = header ++ rest.
Proof.
  unfold splice. destruct (Re.match_ HEADER_RE orig) as [e|]; [|eauto].
  cbv zeta. destruct (has_marker _); simpl; eauto.
Qed.

(** What [update_file] adds to the trace: the read, and at most one write,
    of a text other than the one the file held; it answers [True] exactly
    when it wrote. *)
Lemma update_file_trace (path : Path) (mode : text) (w : world) :
  exists tl,
    trace (snd (update_file path mode w)) = trace w ++ EvRead path :: tl
    /\ ((tl = [] /\ fst (update_file path mode w) ≠ inr true)
        \/ exists t, tl = [EvWrite path t]
                     /\ content w path ≠ Some t
                     /\ fst (update_file path mode w) = inr true).
Proof.
  destruct (fs w !! locate w path) as [f|] eqn:Hf.
  - destruct (fst (derive_dates path mode w)) as [e|[created last]] eqn:Hd.
    + exists []. 
      destruct (observer_run (derive_dates path mode) w (EvRead path)
                  (observer_derive_dates path mode)) as [_ Hrun].
      rewrite Hd in Hrun.
      unfold update_file, mbind, M_bind, read_text. world_simpl.
      rewrite Hf, Hrun. simpl. split; [reflexivity | left; split; congruence].
    + rewrite (update_file_run path mode w f created last Hf Hd). cbv zeta.
      case_bool_decide as Hne.
      * destruct (f_writable f || f_chmod f).
        -- eexists [EvWrite path _]. split.
           ++ simpl. now rewrite <- app_assoc.
           ++ right. eexists. split; [reflexivity|]. split; [|reflexivity].
              unfold content. rewrite Hf. simpl. congruence.
        -- exists []. simpl. split; [reflexivity | left; split; congruence].
      * exists []. simpl. split; [reflexivity | left; split; congruence].
  - exists []. unfold update_file, mbind, M_bind, read_text. world_simpl.
    rewrite Hf. simpl. split; [reflexivity | left; split; congruence].
Qed.

(** C3, as the code has it. A second run of [update_file] in git mode on
    the output of a first run, with the same derived time stamps, writes
    nothing and leaves the text as it is, provided the time stamps
    contain no closing marker, the text after the header does not start
    with white space, and the line terminator detected in the output is
    the one detected in the original. In every run a write stores a text
    that differs from the one read. *)
Theorem second_run_writes_nothing (path : Path) (w w1 : world) (b : bool)
    (orig new1 : text) (created last : option text) :
  content w path = Some orig ->
  fst (derive_dates path (str "git") w) = inr (created, last) ->
  update_file path (str "git") w = (inr b, w1) ->
  content w1 path = Some new1 ->
  fst (derive_dates path (str "git") w1) = inr (created, last) ->
  contains (str "*/") (or_empty created) = false ->
  contains (str "*/") (or_empty last) = false ->
  detect_eol new1 = detect_eol orig ->
  lstrip (drop (length (build_header created last (detect_eol orig))) new1)
  = drop (length (build_header created last (detect_eol orig))) new1 ->
  update_file path (str "git") w1 = (inr false, log (EvRead path) w1)
  /\ forall (p : Path) (m : text) (w0 : world) (t : text),
       (p, t) ∈ writes (drop (length (trace w0))
                             (trace (snd (update_file p m w0)))) ->
       content w0 p ≠ Some t.
Proof.
  intros Hc Hd Hrun Hc1 Hd1 Hnc Hnl Heol Hrest. split.
  - unfold content in Hc, Hc1.
    destruct (fs w !! locate w path) as [f|] eqn:Hf; [|discriminate].
    destruct (fs w1 !! locate w1 path) as [f1|] eqn:Hf1; [|discriminate].
    simpl in Hc, Hc1. injection Hc as Hc. injection Hc1 as Hc1.
    set (h := build_header created last (detect_eol orig)) in *.
    (* the text of the first run *)
    assert (Hnew : new1 = fst (splice h orig)).
    { rewrite (update_file_run path (str "git") w f created last Hf Hd)
        in Hrun. cbv zeta in Hrun. rewrite Hc in Hrun. fold h in Hrun.
      case_bool_decide as Hne.
      - destruct (f_writable f || f_chmod f); [|discriminate].
        injection Hrun as _ <-. revert Hf1. world_simpl.
        rewrite lookup_insert_eq. intros [= <-]. now simpl in Hc1.
      - injection Hrun as _ <-. revert Hf1. world_simpl. rewrite Hf.
        intros [= <-]. congruence. }
    destruct (splice_header_prefix h orig) as [rest Hsp].
    rewrite <- Hnew in Hsp.
    rewrite Hsp, drop_app_length in Hrest.
    assert (Hdet : detect_eol orig = [LF] \/ detect_eol orig = [CR; LF]).
    { unfold detect_eol. destruct (_ && _); auto. }
    destruct (header_is_leading_block created last (detect_eol orig) rest
                Hdet Hnc Hnl Hrest) as (Hm & Htake & Hdrop & Hmark).
    fold h in Hm, Htake, Hdrop, Hmark.
    rewrite (update_file_run path (str "git") w1 f1 created last Hf1 Hd1).
    cbv zeta. rewrite Hc1, Heol. fold h.
    assert (Hsame : fst (splice h new1) = new1).
    { unfold splice. rewrite Hsp, Hm. cbv zeta.
      now rewrite Htake, Hmark, Hdrop. }
    rewrite Hsame. now rewrite bool_decide_eq_false_2 by auto.
  - intros p m w0 t Hin.
    destruct (update_file_trace p m w0) as (tl & Htr & Hcase).
    rewrite Htr, drop_app_length in Hin.
    destruct Hcase as [[-> _] | (t' & -> & Hne & _)]; simpl in Hin.
    + now apply elem_of_nil in Hin.
    + apply list_elem_of_singleton in Hin. congruence.
Qed.


(** ** Deriving the time stamps *)

Lemma run_git_eq (args : list text) (d : Path) (w : world) :
  run_git args d w
  = match proc w d (str "git" :: args) with
    | inr out => (inr (strip out), w)
    | inl CalledProcessError => (inr [], w)
    | inl e => (inl e, w)
    end.
Proof.
  unfold run_git, try_except, check_output, mbind, M_bind.
  destruct (proc w d (str "git" :: args)) as [[]|out]; reflexivity.
Qed.

Lemma get_fs_dates_eq (path : Path) (w : world) :
  get_fs_dates path w = (inr (stat_dates w path), w).
Proof.
  unfold get_fs_dates, stat_dates, try_except, stat, mbind, M_bind.
  destruct (fs w !! locate w path) as [f|]; [|reflexivity].
  destruct (f_stat f); reflexivity.
Qed.

Lemma splitlines_from_nonempty (s cur : text) :
  s ≠ [] \/ cur ≠ [] -> splitlines_from cur s ≠ [].
Proof.
  revert cur; induction s as [|c s IH]; intros cur H.
  - destruct H as [H|H]; [congruence|]. simpl. now destruct cur.
  - simpl. destruct (c =? CR).
    + destruct s as [|d s]; [discriminate|]. destruct (d =? LF); discriminate.
    + destruct (is_linebreak c); [discriminate|].
      apply IH. right. discriminate.
Qed.

Lemma last_splitlines (s : text) :
  s ≠ [] -> exists l, last (splitlines s) = Some l.
Proof.
  intros H. unfold splitlines.
  pose proof (splitlines_from_nonempty s [] (or_introl H)) as Hne.
  destruct (last (splitlines_from [] s)) as [l|] eqn:E; [eauto|].
  apply last_None in E. contradiction.
Qed.

(** [get_git_dates] when neither query raises: what the two calls of
    [run_git] returned decides the result. *)
Lemma get_git_dates_eq (path : Path) (w : world) (c l : text) :
  run_git (created_query path) REPO_ROOT w = (inr c, w) ->
  run_git (last_query path) REPO_ROOT w = (inr l, w) ->
  exists c', get_git_dates path w = (inr (or_None c', or_None l), w)
             /\ (c = [] -> c' = []).
Proof.
  intros Hc Hl. unfold get_git_dates, mbind, M_bind. rewrite Hc.
  destruct c as [|a c].
  - simpl. rewrite Hl. exists []. split; reflexivity.
  - destruct (last_splitlines (a :: c)) as [l' Hl']; [discriminate|].
    rewrite Hl'. simpl. rewrite Hl. exists l'. split; [reflexivity|].
    discriminate.
Qed.

Lemma normalize_datetime_or_None_nil :
  normalize_datetime (or_None []) = None.
Proof. reflexivity. Qed.

(** [derive_dates] from the result of [get_git_dates]. *)
Lemma derive_dates_eq (path : Path) (mode : text) (w : world)
    (g : option text * option text) :
  get_git_dates path w = (inr g, w) ->
  derive_dates path mode w
  = (inr (match normalize_datetime (fst g) with
          | None => fst (stat_dates w path)
          | Some s => Some s
          end,
          if bool_decide (mode = str "commit")
          then Some (strftime (clock w))
          else match normalize_datetime (snd g) with
               | None => snd (stat_dates w path)
               | Some s => Some s
               end), w).
Proof.
  intros Hg. unfold derive_dates, mbind, M_bind. rewrite Hg.
  destruct g as [gc gl]. cbn [fst snd].
  destruct (bool_decide (mode = str "commit"));
    destruct (normalize_datetime gc) as [nc|] eqn:Ec;
    destruct (normalize_datetime gl) as [nl|] eqn:El; cbn;
    rewrite ?get_fs_dates_eq; destruct (stat_dates w path); reflexivity.
Qed.

(** C6, as the code has it. A git query that exits with a non-zero status
    ([CalledProcessError]) is taken as no data: [run_git] returns the
    empty string, the time stamp comes from the file system, and the
    derivation neither raises nor prints. (Any other exception of the
    query is not caught by [run_git].) *)
Theorem nonzero_exit_falls_back (path : Path) (mode : text) (w : world) :
  (proc w REPO_ROOT (str "git" :: created_query path)
     = inl CalledProcessError
   \/ exists out, proc w REPO_ROOT (str "git" :: created_query path)
                  = inr out) ->
  (proc w REPO_ROOT (str "git" :: last_query path) = inl CalledProcessError
   \/ exists out, proc w REPO_ROOT (str "git" :: last_query path)
                  = inr out) ->
  exists created last fs_created fs_last : option text,
    derive_dates path mode w = (inr (created, last), w)
    /\ get_fs_dates path w = (inr (fs_created, fs_last), w)
    /\ (proc w REPO_ROOT (str "git" :: created_query path)
          = inl CalledProcessError ->
        run_git (created_query path) REPO_ROOT w = (inr [], w)
        /\ created = fs_created)
    /\ (proc w REPO_ROOT (str "git" :: last_query path)
          = inl CalledProcessError ->
        run_git (last_query path) REPO_ROOT w = (inr [], w)
        /\ (mode ≠ str "commit" -> last = fs_last)).
Proof.
  intros Hqc Hql.
  assert (Hc : exists c, run_git (created_query path) REPO_ROOT w
                         = (inr c, w)
               /\ (proc w REPO_ROOT (str "git" :: created_query path)
                     = inl CalledProcessError -> c = [])).
  { rewrite run_git_eq. destruct Hqc as [-> | [out ->]].
    - exists []. split; [reflexivity | reflexivity].
    - eexists. split; [reflexivity | discriminate]. }
  assert (Hl : exists l, run_git (last_query path) REPO_ROOT w
                         = (inr l, w)
               /\ (proc w REPO_ROOT (str "git" :: last_query path)
                     = inl CalledProcessError -> l = [])).
  { rewrite run_git_eq. destruct Hql as [-> | [out ->]].
    - exists []. split; [reflexivity | reflexivity].
    - eexists. split; [reflexivity | discriminate]. }
  destruct Hc as (c & Hc & Hc0), Hl as (l & Hl & Hl0).
  destruct (get_git_dates_eq path w c l Hc Hl) as (c' & Hg & Hc').
  rewrite (derive_dates_eq path mode w _ Hg), get_fs_dates_eq.
  cbn [fst snd]. destruct (stat_dates w path) as [fc fl]. cbn [fst snd].
  eexists _, _, fc, fl. split; [reflexivity|]. split; [reflexivity|]. split.
  - intros Hfail. rewrite (Hc0 Hfail) in Hc. split; [exact Hc|].
    rewrite (Hc' (Hc0 Hfail)). reflexivity.
  - intros Hfail. rewrite (Hl0 Hfail) in Hl. split; [exact Hl|].
    intros Hmode. rewrite (Hl0 Hfail).
    now rewrite bool_decide_eq_false_2.
Qed.



(** ** Choosing the files *)

Lemma keep_eq (p : Path) (w : world) :
  keep p w
  = (inr (bool_decide (suffix p ∈ TARGET_EXTS)
          && bool_decide (is_Some (fs w !! locate w p))
          && negb (should_skip p)), w).
Proof.
  unfold keep. case_bool_decide; [|reflexivity].
  unfold mbind, M_bind, is_file. reflexivity.
Qed.

Lemma filter_keep_eq (ps : list Path) (w : world) :
  filter_keep ps w
  = (inr (List.filter
            (fun p => bool_decide (suffix p ∈ TARGET_EXTS)
                      && bool_decide (is_Some (fs w !! locate w p))
                      && negb (should_skip p)) ps), w).
Proof.
  induction ps as [|p ps IH]; [reflexivity|].
  cbn [filter_keep]. unfold mbind, M_bind. rewrite keep_eq, IH.
  cbn [List.filter]. now destruct (_ && _).
Qed.

Lemma list_target_files_total (fl : list text) (w : world) :
  exists ps, list_target_files fl w = (inr ps, w).
Proof.
  unfold list_target_files. destruct fl; rewrite filter_keep_eq; eauto.
Qed.



(** ** The batch *)

Lemma main_loop_run (md : text) (fl : list Path) :
  forall (c : Z) (w : world),
  exists (w' : world) (tr : list event),
    main_loop md fl c w = (inr (c + Z.of_nat (length (writes tr)))%Z, w')
    /\ trace w' = trace w ++ tr
    /\ reads tr = fl
    /\ Forall (fun l => exists f e, f ∈ fl /\ l = warn_line f e) (prints tr).
Proof.
  induction fl as [|f fl IH]; intros c w.
  - exists w, []. cbn. rewrite Z.add_0_r, app_nil_r. repeat split. constructor.
  - destruct (update_file_trace f md w) as (tl & Htr & Hcase).
    cbn [main_loop]. unfold mbind at 1, M_bind at 1, try_except.
    unfold mbind at 1, M_bind at 1.
    destruct (update_file f md w) as [[e|b] w1] eqn:E; cbn [fst snd] in *.
    + destruct Hcase as [[-> _] | (t & _ & _ & Ht)]; [|discriminate].
      cbn [Exception]. unfold mbind at 1, M_bind at 1, print.
      unfold mret at 1, M_ret at 1.
      destruct (IH c (log (EvPrint (warn_line f e)) w1))
        as (w' & tr & Hrun & Htr' & Hreads & Hprints).
      exists w', (EvRead f :: EvPrint (warn_line f e) :: tr).
      unfold reads, writes, prints in *.
      split; [exact Hrun|]. split.
      * rewrite Htr'. cbn [trace log]. rewrite Htr.
        now rewrite <- !app_assoc.
      * split; [cbn; now rewrite Hreads|].
        cbn. constructor.
        -- exists f, e. split; [constructor | reflexivity].
        -- eapply Forall_impl; [exact Hprints|].
           intros l (f' & e' & Hin & ->). exists f', e'.
           split; [now constructor | reflexivity].
    + unfold mret at 1, M_ret at 1.
      destruct (IH (if b then (c + 1)%Z else c) w1)
        as (w' & tr & Hrun & Htr' & Hreads & Hprints).
      exists w', (EvRead f :: tl ++ tr).
      unfold reads, writes, prints in *. split; [|split; [|split]].
      * rewrite Hrun. do 2 f_equal.
        destruct Hcase as [[-> Hb] | (t & -> & _ & Hb)].
        -- destruct b; [congruence|]. reflexivity.
        -- injection Hb as ->. cbn. lia.
      * rewrite Htr', Htr. now rewrite <- app_assoc.
      * destruct Hcase as [[-> _] | (t & -> & _ & _)];
          cbn; now rewrite Hreads.
      * destruct Hcase as [[-> _] | (t & -> & _ & _)]; cbn;
          (eapply Forall_impl; [exact Hprints|]);
          intros l (f' & e' & Hin & ->); exists f', e';
          (split; [now constructor | reflexivity]).
Qed.



(** ** Further properties: the regular expression and the splice *)

(** X1. [HEADER_RE.match] succeeds exactly on the texts that begin with a
    block comment, and the end of the match is the end of the white space
    after the first closing marker; it fails exactly when the text does not
    begin with the opening marker or no closing marker follows it. *)
Theorem HEADER_RE_matches_leading_block (s : text) (e : nat) :
  (Re.match_ HEADER_RE s = Some e
   <-> exists body ws rest,
         leading_block s body ws rest
         /\ e = length (str "/*" ++ body ++ str "*/" ++ ws))
  /\ (Re.match_ HEADER_RE s = None <-> no_leading_block s).
Proof.
  split; split.
  - intros Hm. destruct (leading_block_cases s) as [Hno | (b & ws & r & Hb)].
    + rewrite (no_leading_block_match s Hno) in Hm. discriminate.
    + exists b, ws, r. split; [exact Hb|].
      destruct (leading_block_match _ _ _ _ Hb) as (Hm' & _).
      congruence.
  - intros (b & ws & r & Hb & ->).
    now destruct (leading_block_match _ _ _ _ Hb) as (Hm' & _).
  - intros Hm. destruct (leading_block_cases s) as [Hno | (b & ws & r & Hb)];
      [exact Hno|].
    destruct (leading_block_match _ _ _ _ Hb) as (Hm' & _). congruence.
  - apply no_leading_block_match.
Qed.

Lemma span_space_all (ws rest : text) :
  forallb isspace ws = true ->
  span_space (ws ++ rest) = (length ws + span_space rest)%nat.
Proof.
  intros H. induction ws as [|c ws IH]; [reflexivity|].
  simpl in *. apply andb_true_iff in H as [-> H]. now rewrite IH.
Qed.

Lemma span_space_whole (s : text) :
  span_space s = length s -> forallb isspace s = true.
Proof.
  induction s as [|c s IH]; [reflexivity|]. simpl.
  destruct (isspace c); [|discriminate]. intros [= H]. now apply IH.
Qed.

Lemma span_space_le (s : text) : (span_space s <= length s)%nat.
Proof.
  induction s as [|c s IH]; simpl; [lia|]. destruct (isspace c); simpl; lia.
Qed.

(** When [HEADER_RE] matches the whole of [h], it matches, on [h] followed
    by more text, [h] and the white space the text starts with. *)
Lemma HEADER_RE_match_app (h rest : text) :
  Re.match_ HEADER_RE h = Some (length h) ->
  Re.match_ HEADER_RE (h ++ rest)
  = Some (length h + span_space rest)%nat.
Proof.
  rewrite !HEADER_RE_match. intros Hm.
  destruct (startswith (str "/*") h) eqn:Es; [|discriminate].
  apply startswith_spec in Es as [t ->].
  rewrite <- app_assoc, startswith_app.
  change (drop 2 (str "/*" ++ t ++ rest)) with (t ++ rest).
  change (drop 2 (str "/*" ++ t)) with t in Hm.
  destruct (find (str "*/") t) as [k|] eqn:Ef; [|discriminate].
  rewrite (find_app_Some _ _ rest _ Ef).
  change (length (str "/*" ++ t)) with (S (S (length t))) in *.
  assert (Hm' : (2 + (k + 2 + span_space (drop (k + 2) t))
                 = S (S (length t)))%nat) by congruence.
  pose proof (find_Some_length _ _ _ Ef) as Hk.
  change (length (str "*/")) with 2%nat in Hk.
  assert (Hsp : span_space (drop (k + 2) t) = length (drop (k + 2) t)).
  { rewrite length_drop. lia. }
  rewrite drop_app_le by lia.
  rewrite (span_space_all _ rest (span_space_whole _ Hsp)).
  rewrite length_drop. f_equal. lia.
Qed.

Lemma has_marker_app (x y : text) :
  has_marker x = true -> has_marker (x ++ y) = true.
Proof.
  unfold has_marker. rewrite !orb_true_iff.
  intros [[[H|H]|H]|H]; rewrite (contains_app_l _ x y H);
    rewrite ?orb_true_r; auto.
Qed.

(** A header of [build_header] in front of any text: the splice of a new
    header removes the old one together with the white space after it. *)
Lemma splice_over_header (created edited : option text) (eol h2 rest : text) :
  eol = [LF] \/ eol = [CR; LF] ->
  contains (str "*/") (or_empty created) = false ->
  contains (str "*/") (or_empty edited) = false ->
  splice h2 (build_header created edited eol ++ rest)
  = (h2 ++ lstrip rest, true).
Proof.
  intros Heol Hc Hl.
  destruct (header_is_leading_block created edited eol [] Heol Hc Hl eq_refl)
    as (Hm & _ & _ & Hmark).
  cbv zeta in Hm, Hmark. rewrite app_nil_r in Hm.
  set (h := build_header created edited eol) in *.
  unfold splice. rewrite (HEADER_RE_match_app h rest Hm). cbv zeta.
  rewrite take_app_add', drop_app_add' by reflexivity.
  rewrite (has_marker_app _ _ Hmark). now rewrite lstrip_span.
Qed.

(** X2. A header written by the tool is replaced by the next header, not
    kept below it: whatever the new header is (other time stamps, another
    terminator), splicing it onto an earlier header followed by [rest]
    gives the new header followed by [rest] without its leading white
    space. The earlier time stamps must not contain a closing marker. *)
Theorem former_header_is_replaced (created edited : option text)
    (eol h2 rest : text) :
  eol = [LF] \/ eol = [CR; LF] ->
  contains (str "*/") (or_empty created) = false ->
  contains (str "*/") (or_empty edited) = false ->
  splice h2 (build_header created edited eol ++ rest)
  = (h2 ++ lstrip rest, true)
  /\ length (fst (splice h2 (build_header created edited eol ++ rest)))
     = (length h2 + (length rest - span_space rest))%nat.
Proof.
  intros Heol Hc Hl.
  rewrite (splice_over_header created edited eol h2 rest Heol Hc Hl).
  split; [reflexivity|]. cbn [fst].
  now rewrite length_app, lstrip_span, length_drop.
Qed.

Lemma contains_trans (x y s : text) :
  contains (x ++ y) s = true -> contains y s = true.
Proof.
  induction s as [|c s IH].
  - simpl. rewrite orb_false_r. intros H.
    apply startswith_spec in H as [t Ht].
    destruct x; [|discriminate]. destruct y; [reflexivity | discriminate].
  - change (contains (x ++ y) (c :: s))
      with (startswith (x ++ y) (c :: s) || contains (x ++ y) s).
    intros H. apply orb_true_iff in H as [H|H].
    + apply startswith_spec in H as [t ->]. rewrite <- app_assoc.
      apply contains_app_r.
      pose proof (startswith_app y t) as Hy.
      destruct (y ++ t); simpl; now rewrite Hy.
    + change (contains y (c :: s))
        with (startswith y (c :: s) || contains y s).
      rewrite (IH H). apply orb_true_r.
Qed.

(** X3. The four tests of line 131 come to three: a block holds a marker
    exactly when it contains "@Author", "Author:" or "LastEditTime"; in
    particular any block that mentions "LastEditTime" or "Author:" counts
    as a former header. *)
Theorem has_marker_three_tests (block : text) :
  has_marker block
  = contains (str "@Author") block || contains (str "Author:") block
    || contains (str "LastEditTime") block.
Proof.
  unfold has_marker.
  destruct (contains (str "@LastEditTime") block) eqn:E;
    [|now rewrite orb_false_r].
  change (str "@LastEditTime") with (str "@" ++ str "LastEditTime") in E.
  rewrite (contains_trans _ _ _ E). now rewrite !orb_true_r.
Qed.


(** ** Further properties: line terminators *)

Lemma detect_eol_counts (t : text) :
  detect_eol t
  = if (0 <? crlf_count t)%nat
       && (lone_lf_count false t <=? crlf_count t)%nat
    then [CR; LF] else [LF].
Proof.
  unfold detect_eol, count. rewrite contains_crlf.
  rewrite count_from_crlf, (count_from_lf false). cbn [andb].
  rewrite Nat.add_0_r, Z.geb_leb.
  replace (Z.of_nat (crlf_count t + lone_lf_count false t)
           - Z.of_nat (crlf_count t) <=? Z.of_nat (crlf_count t))%Z
    with (lone_lf_count false t <=? crlf_count t)%nat; [reflexivity|].
  destruct (Nat.leb_spec (lone_lf_count false t) (crlf_count t));
    symmetry; [apply Z.leb_le | apply Z.leb_gt]; lia.
Qed.

Lemma crlf_count_one_line (d y : text) :
  one_line d = true -> crlf_count (d ++ y) = crlf_count y.
Proof.
  intros H. induction d as [|c d IH]; [reflexivity|].
  simpl in H. apply andb_true_iff in H as [Hc H].
  apply andb_true_iff in Hc as [Hcr _]. apply negb_true_iff in Hcr.
  change (crlf_count ((c :: d) ++ y))
    with (if (c =? CR) && match d ++ y with e :: _ => e =? LF | [] => false end
          then S (crlf_count (d ++ y)) else crlf_count (d ++ y)).
  rewrite Hcr. cbn [andb]. now apply IH.
Qed.

Lemma lone_lf_count_one_line (d y : text) :
  one_line d = true ->
  lone_lf_count false (d ++ y) = lone_lf_count false y.
Proof.
  intros H. induction d as [|c d IH]; [reflexivity|].
  simpl in H. apply andb_true_iff in H as [Hc H].
  apply andb_true_iff in Hc as [Hcr Hlf].
  apply negb_true_iff in Hcr, Hlf.
  change (lone_lf_count false ((c :: d) ++ y))
    with (if (c =? LF) && negb false
          then S (lone_lf_count (c =? CR) (d ++ y))
          else lone_lf_count (c =? CR) (d ++ y)).
  rewrite Hlf, Hcr. cbn [andb]. now apply IH.
Qed.

Lemma crlf_count_no_cr (t : text) :
  forallb (fun c => negb (c =? CR)) t = true -> crlf_count t = O.
Proof.
  induction t as [|c t IH]; [reflexivity|]. simpl.
  intros H. apply andb_true_iff in H as [Hc H].
  apply negb_true_iff in Hc. rewrite Hc. cbn [andb]. now apply IH.
Qed.

Lemma crlf_lines_counts (ls : list text) :
  Forall (fun l => one_line l = true) ls ->
  crlf_count (crlf_lines ls) = length ls
  /\ lone_lf_count false (crlf_lines ls) = O.
Proof.
  induction 1 as [|l ls Hl _ [IHc IHl]]; [split; reflexivity|].
  unfold crlf_lines in *. cbn [fmap list_fmap concat].
  rewrite <- app_assoc. split.
  - rewrite (crlf_count_one_line l _ Hl).
    change (crlf_count ([CR; LF] ++ concat ((fun l => l ++ [CR; LF]) <$> ls)))
      with (S (crlf_count (concat ((fun l => l ++ [CR; LF]) <$> ls)))).
    now rewrite IHc.
  - rewrite (lone_lf_count_one_line l _ Hl).
    change (lone_lf_count false
              ([CR; LF] ++ concat ((fun l => l ++ [CR; LF]) <$> ls)))
      with (lone_lf_count false (concat ((fun l => l ++ [CR; LF]) <$> ls))).
    exact IHl.
Qed.

(** X4. Uniform files. A text without any CR has terminator LF (also the
    empty text and a text without line ends); a text made of lines that
    each end in CR LF has terminator CR LF, unless it has no line at
    all. *)
Theorem detect_eol_uniform (t : text) (ls : list text) :
  (forallb (fun c => negb (c =? CR)) t = true -> detect_eol t = [LF])
  /\ (Forall (fun l => one_line l = true) ls ->
      detect_eol (crlf_lines ls)
      = match ls with [] => [LF] | _ => [CR; LF] end).
Proof.
  split.
  - intros H. rewrite detect_eol_counts, (crlf_count_no_cr t H).
    reflexivity.
  - intros H. rewrite detect_eol_counts.
    destruct (crlf_lines_counts ls H) as [-> ->].
    now destruct ls.
Qed.

(** The line ends of a header in front of a text, for the two
    terminators. *)
Lemma header_counts (created edited : option text) (t : text) :
  one_line (or_empty created) = true ->
  one_line (or_empty edited) = true ->
  (crlf_count (build_header created edited [LF] ++ t) = crlf_count t
   /\ lone_lf_count false (build_header created edited [LF] ++ t)
      = (8 + lone_lf_count false t)%nat)
  /\ (crlf_count (build_header created edited [CR; LF] ++ t)
      = (8 + crlf_count t)%nat
      /\ lone_lf_count false (build_header created edited [CR; LF] ++ t)
         = lone_lf_count false t).
Proof.
  intros Hc Hl. rewrite !build_header_eq. norm_str.
  repeat split; rewrite <- !app_assoc; cbn [app];
    repeat first
      [ rewrite (crlf_count_one_line (or_empty created)) by exact Hc
      | rewrite (crlf_count_one_line (or_empty edited)) by exact Hl
      | rewrite (lone_lf_count_one_line (or_empty created)) by exact Hc
      | rewrite (lone_lf_count_one_line (or_empty edited)) by exact Hl
      | progress cbn ];
    reflexivity.
Qed.

Lemma detect_eol_header_app (created edited : option text) (t : text) :
  one_line (or_empty created) = true ->
  one_line (or_empty edited) = true ->
  detect_eol (build_header created edited (detect_eol t) ++ t)
  = detect_eol t.
Proof.
  intros Hc Hl.
  destruct (header_counts created edited t Hc Hl)
    as [[Hc1 Hl1] [Hc2 Hl2]].
  rewrite (detect_eol_counts t).
  destruct ((0 <? crlf_count t)%nat
            && (lone_lf_count false t <=? crlf_count t)%nat) eqn:E.
  - rewrite detect_eol_counts, Hc2, Hl2.
    apply andb_true_iff in E as [E1 E2].
    apply Nat.leb_le in E2.
    replace (lone_lf_count false t <=? 8 + crlf_count t)%nat with true
      by (symmetry; apply Nat.leb_le; lia).
    reflexivity.
  - rewrite detect_eol_counts, Hc1, Hl1.
    apply andb_false_iff in E as [E|E].
    + now rewrite E.
    + apply Nat.leb_gt in E.
      replace (8 + lone_lf_count false t <=? crlf_count t)%nat with false
        by (symmetry; apply Nat.leb_gt; lia).
      now rewrite andb_false_r.
Qed.

(** X5. Putting the header in front of a text does not change the
    terminator that [detect_eol] finds: the header built with the
    terminator of the text, followed by the text, has that terminator
    again. The time stamps must be free of CR and LF. *)
Theorem header_keeps_line_ending (created edited : option text) (t : text) :
  one_line (or_empty created) = true ->
  one_line (or_empty edited) = true ->
  detect_eol (build_header created edited (detect_eol t) ++ t)
  = detect_eol t
  /\ build_header created edited
       (detect_eol (build_header created edited (detect_eol t) ++ t))
     = build_header created edited (detect_eol t).
Proof.
  intros Hc Hl. rewrite (detect_eol_header_app created edited t Hc Hl).
  split; reflexivity.
Qed.


(** ** Further properties: one run of [update_file] *)

(** The three ways a run of [update_file] ends: with an exception and
    nothing but the read in the trace, with [False] and nothing but the
    read, or with [True] after storing a new text in the file. *)
Lemma update_file_cases (path : Path) (mode : text) (w : world) :
  (exists e, update_file path mode w = (inl e, log (EvRead path) w)
             /\ ((fs w !! locate w path = None /\ e = FileNotFoundError)
                 \/ (is_Some (fs w !! locate w path)
                     /\ fst (derive_dates path mode w) = inl e)
                 \/ (exists f created edited,
                       fs w !! locate w path = Some f
                       /\ fst (derive_dates path mode w)
                          = inr (created, edited)
                       /\ fst (splice (build_header created edited
                                         (detect_eol (f_data f))) (f_data f))
                          ≠ f_data f
                       /\ f_writable f || f_chmod f = false
                       /\ e = PermissionError)))
  \/ (update_file path mode w = (inr false, log (EvRead path) w)
      /\ exists f created edited,
           fs w !! locate w path = Some f
           /\ fst (derive_dates path mode w) = inr (created, edited)
           /\ fst (splice (build_header created edited
                             (detect_eol (f_data f))) (f_data f))
              = f_data f)
  \/ (exists f created edited,
        fs w !! locate w path = Some f
        /\ fst (derive_dates path mode w) = inr (created, edited)
        /\ fst (splice (build_header created edited (detect_eol (f_data f)))
                       (f_data f)) ≠ f_data f
        /\ f_writable f || f_chmod f = true
        /\ update_file path mode w
           = (inr true,
              log (EvWrite path
                     (fst (splice (build_header created edited
                                     (detect_eol (f_data f))) (f_data f))))
                (set_fs
                   (<[locate w path :=
                      MkFile (fst (splice (build_header created edited
                                             (detect_eol (f_data f)))
                                          (f_data f)))
                             (f_stat f) true
                             (f_chmod f || negb (f_writable f))]> (fs w))
                   (log (EvRead path) w)))).
Proof.
  destruct (fs w !! locate w path) as [f|] eqn:Hf.
  - destruct (fst (derive_dates path mode w)) as [e|[created edited]] eqn:Hd.
    + left. exists e. split; [|right; left; split; [eauto | reflexivity]].
      destruct (observer_run (derive_dates path mode) w (EvRead path)
                  (observer_derive_dates path mode)) as [_ Hrun].
      rewrite Hd in Hrun.
      unfold update_file, mbind, M_bind, read_text. world_simpl.
      now rewrite Hf, Hrun.
    + pose proof (update_file_run path mode w f created edited Hf Hd) as Hrun.
      cbv zeta in Hrun. case_bool_decide as Hne.
      * destruct (f_writable f || f_chmod f) eqn:Hperm.
        -- right; right. exists f, created, edited. auto.
        -- left. exists PermissionError. split; [exact Hrun|].
           right; right. exists f, created, edited. auto.
      * right; left. split; [exact Hrun|]. exists f, created, edited. auto.
  - left. exists FileNotFoundError. split; [|left; auto].
    unfold update_file, mbind, M_bind, read_text. world_simpl.
    now rewrite Hf.
Qed.



(** X8. A read-only file. When the text has to change and the file is
    read-only, [update_file] succeeds if [chmod] is permitted, and the file
    is then left writable with the new text (the read-only attribute is
    not put back). *)
Theorem read_only_file_left_writable (path : Path) (mode : text) (w : world)
    (f : file) (created edited : option text) :
  fs w !! locate w path = Some f ->
  fst (derive_dates path mode w) = inr (created, edited) ->
  fst (splice (build_header created edited (detect_eol (f_data f)))
              (f_data f)) ≠ f_data f ->
  f_writable f = false ->
  f_chmod f = true ->
  fst (update_file path mode w) = inr true
  /\ fs (snd (update_file path mode w)) !! locate w path
     = Some (MkFile (fst (splice (build_header created edited
                                    (detect_eol (f_data f))) (f_data f)))
                    (f_stat f) true true).
Proof.
  intros Hf Hd Hne Hw Hc.
  rewrite (update_file_run path mode w f created edited Hf Hd). cbv zeta.
  rewrite bool_decide_eq_true_2 by exact Hne.
  rewrite Hw, Hc. cbn [orb negb fst snd]. split; [reflexivity|].
  world_simpl. now rewrite lookup_insert_eq.
Qed.

(** X9. Only the mode "commit" is special: with any other mode string
    [update_file] does what it does in mode "git". *)
Theorem other_modes_are_git (path : Path) (mode : text) (w : world) :
  mode ≠ str "commit" ->
  update_file path mode w = update_file path (str "git") w.
Proof.
  intros Hm. unfold update_file, derive_dates.
  rewrite (bool_decide_eq_false_2 (mode = str "commit")) by exact Hm.
  rewrite (bool_decide_eq_false_2 (str "git" = str "commit"))
    by discriminate.
  reflexivity.
Qed.


(** The text in the file after a run that did not raise. *)
Lemma first_run_content (path : Path) (mode : text) (w w1 : world) (b : bool)
    (orig : text) (created edited : option text) :
  content w path = Some orig ->
  fst (derive_dates path mode w) = inr (created, edited) ->
  update_file path mode w = (inr b, w1) ->
  content w1 path
  = Some (fst (splice (build_header created edited (detect_eol orig)) orig)).
Proof.
  intros Hc Hd Hrun. unfold content in Hc.
  destruct (fs w !! locate w path) as [f|] eqn:Hf; [|discriminate].
  simpl in Hc. injection Hc as Hc.
  rewrite (update_file_run path mode w f created edited Hf Hd) in Hrun.
  cbv zeta in Hrun. rewrite Hc in Hrun.
  case_bool_decide as Hne.
  - destruct (f_writable f || f_chmod f); [|discriminate].
    injection Hrun as _ <-. apply content_after_write.
  - injection Hrun as _ <-. unfold content. world_simpl.
    rewrite Hf. simpl. congruence.
Qed.

(** X10. Idempotence after an insertion. For a text that does not start
    with white space and has no leading block comment, or only one without
    markers, a second run in git mode with the same derived time stamps
    writes nothing. The time stamps must be free of CR, LF and of the
    closing marker, as rendered dates are. *)
Theorem rerun_after_insert_writes_nothing (path : Path) (w w1 : world)
    (b : bool) (orig : text) (created edited : option text) :
  content w path = Some orig ->
  fst (derive_dates path (str "git") w) = inr (created, edited) ->
  update_file path (str "git") w = (inr b, w1) ->
  fst (derive_dates path (str "git") w1) = inr (created, edited) ->
  one_line (or_empty created) = true ->
  one_line (or_empty edited) = true ->
  contains (str "*/") (or_empty created) = false ->
  contains (str "*/") (or_empty edited) = false ->
  lstrip orig = orig ->
  (no_leading_block orig
   \/ exists body ws rest,
        leading_block orig body ws rest
        /\ has_marker (str "/*" ++ body ++ str "*/" ++ ws) = false) ->
  content w1 path
  = Some (build_header created edited (detect_eol orig) ++ orig)
  /\ update_file path (str "git") w1 = (inr false, log (EvRead path) w1).
Proof.
  intros Hc Hd Hrun Hd1 Hoc Hoe Hnc Hne Hls Hcase.
  pose proof (first_run_content _ _ _ _ _ _ _ _ Hc Hd Hrun) as Hc1.
  set (h := build_header created edited (detect_eol orig)) in *.
  assert (Hsp : fst (splice h orig) = h ++ orig).
  { unfold splice. destruct Hcase as [Hno | (body & ws & rest & Hb & Hm)].
    - now rewrite (no_leading_block_match _ Hno).
    - destruct (leading_block_match _ _ _ _ Hb) as (Hre & Htake & _).
      rewrite Hre. cbv zeta. now rewrite Htake, Hm. }
  rewrite Hsp in Hc1. split; [exact Hc1|].
  unfold content in Hc1.
  destruct (fs w1 !! locate w1 path) as [f1|] eqn:Hf1; [|discriminate].
  change (Some (f_data f1) = Some (h ++ orig)) in Hc1.
  assert (Hdata : f_data f1 = h ++ orig) by congruence.
  rewrite (update_file_run path (str "git") w1 f1 created edited Hf1 Hd1).
  cbv zeta. rewrite Hdata. clear Hdata Hsp. subst h.
  rewrite (detect_eol_header_app created edited orig Hoc Hoe).
  assert (Hdet : detect_eol orig = [LF] \/ detect_eol orig = [CR; LF]).
  { unfold detect_eol. destruct (_ && _); auto. }
  rewrite (splice_over_header created edited (detect_eol orig)
             (build_header created edited (detect_eol orig)) orig
             Hdet Hnc Hne).
  cbn [fst]. rewrite Hls.
  now rewrite bool_decide_eq_false_2 by auto.
Qed.

(** ** Further properties: the time stamps *)

Lemma normalize_datetime_Some (s : text) :
  s ≠ [] -> exists r, normalize_datetime (Some s) = Some r.
Proof. intros H. rewrite normalize_datetime_eq by exact H. eauto. Qed.

(** X11. The mode touches LastEditTime only. Whether deriving the time
    stamps raises, and the Date it gives, are the same in every mode; in
    mode "commit" LastEditTime is the rendering of the current time,
    whatever git and the file system say. *)
Theorem mode_only_sets_last_edit_time (path : Path) (m1 m2 : text)
    (w : world) :
  sum_map id fst (fst (derive_dates path m1 w))
  = sum_map id fst (fst (derive_dates path m2 w))
  /\ forall created edited,
       fst (derive_dates path (str "commit") w) = inr (created, edited) ->
       edited = Some (strftime (clock w)).
Proof.
  destruct (observer_run (get_git_dates path) w (EvRead path)
              (observer_get_git_dates path)) as [Hg _].
  destruct (fst (get_git_dates path w)) as [e|g] eqn:Eg.
  - assert (Hraise : forall m, derive_dates path m w = (inl e, w)).
    { intros m. unfold derive_dates, mbind, M_bind. now rewrite Hg. }
    rewrite !Hraise. split; [reflexivity|]. intros c l. discriminate.
  - rewrite !(derive_dates_eq path _ w g Hg). cbn [fst sum_map id].
    split; [reflexivity|]. intros c l.
    rewrite bool_decide_eq_true_2 by reflexivity. congruence.
Qed.

(** X12. Git comes first. When both git queries give a time stamp, the
    header dates are these, normalized, and the state of the file (even a
    failing [stat]) plays no part. *)
Theorem git_dates_take_precedence (path : Path) (w : world) (c l : text) :
  get_git_dates path w = (inr (Some c, Some l), w) ->
  c ≠ [] -> l ≠ [] ->
  derive_dates path (str "git") w
  = (inr (normalize_datetime (Some c), normalize_datetime (Some l)), w)
  /\ is_Some (normalize_datetime (Some c))
  /\ is_Some (normalize_datetime (Some l)).
Proof.
  intros Hg Hc Hl.
  destruct (normalize_datetime_Some c Hc) as [rc Hrc].
  destruct (normalize_datetime_Some l Hl) as [rl Hrl].
  rewrite (derive_dates_eq path (str "git") w _ Hg). cbn [fst snd].
  rewrite Hrc, Hrl.
  rewrite bool_decide_eq_false_2 by discriminate. eauto.
Qed.

(** X13. No date at all. For a file without git history whose [stat]
    fails, both dates are absent and [update_file] still goes on: the text
    it composes carries the header with the two fields empty. *)
Theorem no_dates_gives_empty_fields (path : Path) (w : world) (f : file) :
  fs w !! locate w path = Some f ->
  f_stat f = None ->
  get_git_dates path w = (inr (None, None), w) ->
  f_writable f || f_chmod f = true ->
  get_fs_dates path w = (inr (None, None), w)
  /\ derive_dates path (str "git") w = (inr (None, None), w)
  /\ exists (b : bool) (w' : world) (rest : text),
       update_file path (str "git") w = (inr b, w')
       /\ content w' path
          = Some (build_header None None (detect_eol (f_data f)) ++ rest)
       /\ omap field_of_line (header_lines None None)
          = [ (str "Author", AUTHOR); (str "Email", EMAIL);
              (str "Date", []); (str "LastEditors", AUTHOR);
              (str "LastEditTime", []); (str "Description", []) ].
Proof.
  intros Hf Hst Hg Hperm.
  assert (Hfs : get_fs_dates path w = (inr (None, None), w)).
  { rewrite get_fs_dates_eq. unfold stat_dates. now rewrite Hf, Hst. }
  assert (Hd : derive_dates path (str "git") w = (inr (None, None), w)).
  { rewrite (derive_dates_eq path (str "git") w _ Hg).
    unfold stat_dates. rewrite Hf, Hst. reflexivity. }
  split; [exact Hfs|]. split; [exact Hd|].
  assert (Hd' : fst (derive_dates path (str "git") w) = inr (None, None))
    by now rewrite Hd.
  destruct (splice_header_prefix
              (build_header None None (detect_eol (f_data f))) (f_data f))
    as [rest Hrest].
  destruct (update_file path (str "git") w) as [[e|b] w'] eqn:Hrun.
  - exfalso.
    rewrite (update_file_run path (str "git") w f _ _ Hf Hd') in Hrun.
    cbv zeta in Hrun. rewrite Hperm in Hrun.
    case_bool_decide; discriminate.
  - exists b, w', rest. split; [reflexivity|]. split; [|reflexivity].
    assert (Hc : content w path = Some (f_data f))
      by (unfold content; now rewrite Hf).
    rewrite (first_run_content _ _ _ _ _ _ _ _ Hc Hd' Hrun).
    now rewrite Hrest.
Qed.


(** ** Further properties: [normalize_datetime] and [get_git_dates] *)

Lemma lstrip_length (x : text) : (length (lstrip x) <= length x)%nat.
Proof. rewrite lstrip_span, length_drop. lia. Qed.

Lemma lstrip_fixed_head (x : text) :
  lstrip x = x ->
  match x with c :: _ => isspace c = false | [] => True end.
Proof.
  destruct x as [|c x]; [trivial|]. simpl.
  destruct (isspace c); [|reflexivity]. intros H.
  pose proof (lstrip_length x) as Hl. rewrite H in Hl. simpl in Hl. lia.
Qed.

Lemma lstrip_head (x : text) :
  match lstrip x with c :: _ => isspace c = false | [] => True end.
Proof. apply lstrip_fixed_head, lstrip_idem. Qed.

Lemma lstrip_of_head (c : N) (x : text) :
  isspace c = false -> lstrip (c :: x) = c :: x.
Proof. intros H. simpl. now rewrite H. Qed.

Lemma rstrip_take (q : text) :
  rstrip q = take (length q - span_space (rev q)) q.
Proof.
  unfold rstrip. now rewrite lstrip_span, skipn_rev, rev_involutive.
Qed.

Lemma rstrip_length (x : text) : (length (rstrip x) <= length x)%nat.
Proof.
  unfold rstrip. rewrite length_rev.
  pose proof (lstrip_length (rev x)) as H. now rewrite length_rev in H.
Qed.

Lemma rstrip_last (x : text) (c : N) :
  last (rstrip x) = Some c -> isspace c = false.
Proof.
  unfold rstrip. pose proof (lstrip_head (rev x)) as H.
  destruct (lstrip (rev x)) as [|d y]; [discriminate|].
  simpl. rewrite last_snoc. now intros [= <-].
Qed.

Lemma strip_last (x : text) (c : N) :
  last (strip x) = Some c -> isspace c = false.
Proof. apply rstrip_last. Qed.

Lemma strip_fixed (s : text) :
  strip s = s -> lstrip s = s /\ rstrip s = s.
Proof.
  intros H. unfold strip in H.
  assert (Hl : lstrip s = s).
  { pose proof (rstrip_length (lstrip s)) as H1. rewrite H in H1.
    pose proof (lstrip_length s) as H2.
    rewrite lstrip_span in *. rewrite length_drop in *.
    pose proof (span_space_le s) as H3.
    assert (span_space s = O) by lia.
    now replace (span_space s) with O. }
  split; [exact Hl|]. now rewrite Hl in H.
Qed.

Lemma lstrip_rstrip (q : text) : lstrip q = q -> lstrip (rstrip q) = rstrip q.
Proof.
  intros H. pose proof (lstrip_fixed_head q H) as Hh.
  rewrite rstrip_take. destruct q as [|c q]; [now rewrite take_nil|].
  destruct (length (c :: q) - span_space (rev (c :: q)))%nat; [reflexivity|].
  cbn [take]. now apply lstrip_of_head.
Qed.

Lemma strip_idem (p : text) : strip (strip p) = strip p.
Proof.
  unfold strip. rewrite (lstrip_rstrip (lstrip p) (lstrip_idem p)).
  unfold rstrip. now rewrite rev_involutive, lstrip_idem.
Qed.

Lemma strip_inside (p : text) :
  exists a b, p = a ++ strip p ++ b.
Proof.
  unfold strip. rewrite rstrip_take.
  exists (take (span_space p) p),
    (drop (length (lstrip p) - span_space (rev (lstrip p))) (lstrip p)).
  rewrite take_drop. rewrite lstrip_span. now rewrite take_drop.
Qed.

Lemma contains_strip (sub p : text) :
  contains sub p = false -> contains sub (strip p) = false.
Proof.
  intros H. destruct (contains sub (strip p)) eqn:E; [|reflexivity].
  destruct (strip_inside p) as (a & b & Hp).
  rewrite Hp in H.
  now rewrite (contains_app_r sub a _ (contains_app_l sub _ b E)) in H.
Qed.

Lemma contains_before_find (sub s : text) (k : nat) :
  sub ≠ [] -> find sub s = Some k -> contains sub (take k s) = false.
Proof.
  intros Hsub Hf. destruct (contains sub (take k s)) eqn:E; [|reflexivity].
  destruct (find sub (take k s)) as [j|] eqn:Ej.
  - pose proof (find_Some_length _ _ _ Ej) as Hj.
    destruct (find_Some_split _ _ _ Hf) as [_ Hk].
    rewrite (find_app_Some _ _ sub _ Ej) in Hk. injection Hk as ->.
    rewrite length_take in Hj. destruct sub; [congruence|].
    simpl in Hj. lia.
  - apply find_None_contains in Ej. congruence.
Qed.

Lemma find_pair_app (a b : N) (x y : text) :
  contains [a; b] x = false ->
  last x ≠ Some a \/ head y ≠ Some b ->
  find [a; b] (x ++ y) = (fun k => length x + k)%nat <$> find [a; b] y.
Proof.
  induction x as [|c x IH]; intros Hc Hb.
  - simpl. now destruct (find [a; b] y).
  - change (contains [a; b] (c :: x))
      with (startswith [a; b] (c :: x) || contains [a; b] x) in Hc.
    apply orb_false_iff in Hc as [Hs Hc].
    change ((c :: x) ++ y) with (c :: x ++ y).
    change (find [a; b] (c :: x ++ y))
      with (if startswith [a; b] (c :: x ++ y) then Some O
            else S <$> find [a; b] (x ++ y)).
    assert (Hst : startswith [a; b] (c :: x ++ y) = false).
    { destruct x as [|d x].
      - destruct y as [|e y]; simpl; [now rewrite andb_false_r|].
        rewrite andb_true_r.
        destruct (c =? a) eqn:Ec; [|reflexivity].
        destruct (e =? b) eqn:Ee; [|reflexivity].
        apply N.eqb_eq in Ec, Ee. subst.
        destruct Hb as [Hb|Hb]; now elim Hb.
      - change (c :: (d :: x) ++ y) with ((c :: d :: x) ++ y).
        rewrite startswith_app_long; [exact Hs | simpl; lia]. }
    rewrite Hst, IH.
    + destruct (find [a; b] y); reflexivity.
    + exact Hc.
    + destruct Hb as [Hb|Hb]; [|now right].
      left. destruct x as [|d x]; [discriminate | exact Hb].
Qed.

(** X14. An offset written with a plus sign is removed, whatever follows
    the sign: for a stamp [s] that is not empty, has no white space around
    it and does not contain " +", [normalize_datetime] of [s], " +" and
    any offset text is [s]. *)
Theorem normalize_datetime_plus_offset (s off : text) :
  s ≠ [] -> strip s = s -> contains (str " +") s = false ->
  normalize_datetime (Some (s ++ str " +" ++ off)) = Some s.
Proof.
  intros Hs Hst Hc.
  rewrite normalize_datetime_eq by (destruct s; [congruence | discriminate]).
  assert (Hlast : last s ≠ Some 32).
  { intros Hl. destruct (strip_fixed s Hst) as [_ Hr].
    rewrite <- Hr in Hl. now apply rstrip_last in Hl. }
  change (str " +") with [32; 43] in *.
  rewrite (find_pair_app 32 43 s ([32; 43] ++ off) Hc (or_introl Hlast)).
  change (find [32; 43] ([32; 43] ++ off)) with (Some O).
  cbn [fmap option_fmap option_map]. rewrite Nat.add_0_r.
  now rewrite take_app_length, Hst.
Qed.

(** X15. What [normalize_datetime] returns. It is [None] exactly for an
    absent or empty input; otherwise the result has no white space around
    it, does not contain " +", and normalizing it again changes nothing
    (unless it is empty, which gives [None]). *)
Theorem normalize_datetime_result (dt : option text) :
  (normalize_datetime dt = None <-> dt = None \/ dt = Some [])
  /\ forall r, normalize_datetime dt = Some r ->
       strip r = r
       /\ contains (str " +") r = false
       /\ normalize_datetime (Some r) = or_None r.
Proof.
  split.
  - destruct dt as [[|c s]|]; simpl; split; auto; try discriminate;
      intros [H|H]; discriminate.
  - intros r Hr. destruct dt as [s|]; [|discriminate].
    destruct s as [|c s]; [discriminate|].
    rewrite normalize_datetime_eq in Hr by discriminate.
    set (p := match find (str " +") (c :: s) with
              | Some k => take k (c :: s)
              | None => c :: s
              end) in *.
    assert (Hrp : r = strip p) by congruence. subst r. clear Hr.
    assert (Hp : contains (str " +") p = false).
    { assert (Hsep : str " +" ≠ []) by discriminate.
      unfold p. destruct (find (str " +") (c :: s)) as [k|] eqn:Ef.
      - apply (contains_before_find _ _ _ Hsep Ef).
      - now apply find_None_contains. }
    assert (Hc : contains (str " +") (strip p) = false)
      by now apply contains_strip.
    split; [apply strip_idem|]. split; [exact Hc|].
    destruct (strip p) as [|d r] eqn:Er; [reflexivity|].
    rewrite normalize_datetime_eq by discriminate.
    apply find_None_contains in Hc. rewrite Hc.
    rewrite <- Er, strip_idem. now rewrite Er.
Qed.

Lemma linebreak_isspace (c : N) :
  (c =? CR) || is_linebreak c = true -> isspace c = true.
Proof.
  unfold is_linebreak. rewrite !orb_true_iff.
  intros H; decompose [or] H; clear H;
    match goal with E : (_ =? _) = true |- _ =>
      apply N.eqb_eq in E; subst; reflexivity end.
Qed.

Lemma splitlines_from_last (n : nat) :
  forall (s cur : text) (c : N),
    (length s <= n)%nat ->
    last s = Some c -> isspace c = false ->
    exists l, last (splitlines_from cur s) = Some l /\ l ≠ [].
Proof.
  induction n as [|n IH]; intros s cur c Hn Hl Hc.
  - destruct s; [discriminate | simpl in Hn; lia].
  - destruct s as [|a s]; [discriminate|].
    destruct s as [|b s].
    + injection Hl as ->.
      assert (Ha : (c =? CR) || is_linebreak c = false).
      { destruct ((c =? CR) || is_linebreak c) eqn:E; [|reflexivity].
        apply linebreak_isspace in E. congruence. }
      apply orb_false_iff in Ha as [Ha1 Ha2].
      simpl. rewrite Ha1, Ha2. exists (rev cur ++ [c]). split.
      * reflexivity.
      * now destruct (rev cur).
    + rewrite last_cons_cons in Hl.
      change (splitlines_from cur (a :: b :: s))
        with (if a =? CR then
                if b =? LF then rev cur :: splitlines_from [] s
                else rev cur :: splitlines_from [] (b :: s)
              else if is_linebreak a
                   then rev cur :: splitlines_from [] (b :: s)
                   else splitlines_from (a :: cur) (b :: s)).
      assert (Hrec : forall cur',
                 exists l, last (splitlines_from cur' (b :: s)) = Some l
                           /\ l ≠ []).
      { intros cur'. apply (IH (b :: s) cur' c); [simpl in *; lia | | ];
          assumption. }
      assert (Hcons : forall (x : list N) (ls : list (list N)),
                 (exists l, last ls = Some l /\ l ≠ []) ->
                 exists l, last (x :: ls) = Some l /\ l ≠ []).
      { intros x ls (l & Hlast & Hne). exists l. split; [|exact Hne].
        destruct ls; [discriminate|]. now rewrite last_cons_cons. }
      destruct (a =? CR).
      * destruct (b =? LF) eqn:Eb; [|apply Hcons, Hrec].
        apply Hcons. destruct s as [|d s].
        -- exfalso. injection Hl as ->. apply N.eqb_eq in Eb. subst.
           discriminate.
        -- rewrite last_cons_cons in Hl.
           apply (IH (d :: s) [] c); [simpl in *; lia | | ]; assumption.
      * destruct (is_linebreak a); [apply Hcons, Hrec | apply Hrec].
Qed.

(** X16. The Date of git is the last line of the creation log. When the
    two git queries print [out] and [out2], [get_git_dates] gives, for the
    creation date, the last line of [out] without the white space around
    [out] (and no date when nothing else is left), and for the last
    change [out2] without the white space around it. Indexing the last
    line never fails, and that line is never empty. *)
Theorem creation_date_is_last_line (path : Path) (w : world)
    (out out2 : text) :
  proc w REPO_ROOT (str "git" :: created_query path) = inr out ->
  proc w REPO_ROOT (str "git" :: last_query path) = inr out2 ->
  get_git_dates path w
  = (inr (match strip out with
          | [] => None
          | _ => last (splitlines (strip out))
          end, or_None (strip out2)), w)
  /\ (strip out ≠ [] ->
      exists l, last (splitlines (strip out)) = Some l /\ l ≠ []).
Proof.
  intros Hc Hl.
  assert (Hlast : strip out ≠ [] ->
                  exists l, last (splitlines (strip out)) = Some l /\ l ≠ []).
  { intros Hne. destruct (last (strip out)) as [c|] eqn:Ec.
    - apply (splitlines_from_last (length (strip out)) (strip out) [] c);
        [lia | exact Ec | now apply (strip_last out)].
    - apply last_None in Ec. contradiction. }
  split; [|exact Hlast].
  unfold get_git_dates, mbind, M_bind. rewrite !run_git_eq, Hc.
  destruct (strip out) as [|a s] eqn:Es.
  - cbn. rewrite run_git_eq, Hl. reflexivity.
  - destruct (Hlast ltac:(discriminate)) as (l & Hl' & Hne).
    rewrite Hl'. cbn. rewrite run_git_eq, Hl.
    destruct l; [congruence | reflexivity].
Qed.


(** ** Further properties: choosing the files and the batch *)

Lemma last_take_S (ps : list (list N)) (j : nat) :
  (j < length ps)%nat -> List.last (take (S j) ps) [] = nth j ps [].
Proof.
  revert j; induction ps as [|c ps IH]; intros j Hj; [simpl in Hj; lia|].
  destruct j as [|j].
  - destruct ps; reflexivity.
  - simpl in Hj. specialize (IH j ltac:(lia)).
    change (take (S (S j)) (c :: ps)) with (c :: take (S j) ps).
    destruct ps as [|d ps]; [simpl in Hj; lia|].
    change (List.last (c :: take (S j) (d :: ps)) [])
      with (List.last (take (S j) (d :: ps)) []).
    exact IH.
Qed.

Lemma empty_not_skipped : ([] : list N) ∉ SKIP_DIRS.
Proof.
  assert (H : bool_decide (([] : list N) ∈ SKIP_DIRS) = false)
    by (vm_compute; reflexivity).
  now apply bool_decide_eq_false in H.
Qed.

(** X17. Which paths are skipped. [should_skip] holds exactly when one of
    the directories on the way to the path (a component other than the
    last) has a name in [SKIP_DIRS]; the name of the file itself does not
    count. *)
Theorem should_skip_iff (p : Path) :
  should_skip p = true <-> exists d, d ∈ dirs p /\ d ∈ SKIP_DIRS.
Proof.
  unfold should_skip, dirs. rewrite existsb_exists.
  rewrite removelast_firstn_len.
  set (ps := parts p). set (n := length ps).
  split.
  - intros (x & Hin & Hx). apply bool_decide_eq_true in Hx.
    exists x. split; [|exact Hx].
    apply list_elem_of_In, elem_of_elements, elem_of_list_to_set in Hin.
    apply list_elem_of_fmap in Hin as (q & -> & Hq).
    unfold parents in Hq. apply list_elem_of_fmap in Hq as (k & -> & Hk).
    apply list_elem_of_In, in_rev, in_seq in Hk. fold ps in Hk |- *.
    unfold name in *. cbn [parts] in *.
    destruct k as [|j].
    + exfalso. rewrite take_0 in Hx. now apply empty_not_skipped.
    + rewrite last_take_S in * by (fold n; lia).
      apply list_elem_of_lookup. exists j.
      rewrite lookup_take_lt by (fold n; lia).
      destruct (nth_lookup_or_length ps j []) as [H|H]; [exact H|].
      fold n in H. lia.
  - intros (d & Hd & Hskip).
    apply list_elem_of_lookup in Hd as [j Hj].
    pose proof (lookup_lt_Some _ _ _ Hj) as Hlt.
    rewrite length_take in Hlt. fold ps n in Hlt.
    rewrite lookup_take_lt in Hj by lia. fold ps in Hj.
    exists d. split; [|now apply bool_decide_eq_true].
    apply list_elem_of_In, elem_of_elements, elem_of_list_to_set.
    apply list_elem_of_fmap.
    exists (MkPath (absolute p) (take (S j) ps)). split.
    + unfold name. cbn [parts]. rewrite last_take_S by (fold n; lia).
      symmetry. now apply nth_lookup_Some.
    + unfold parents. apply list_elem_of_fmap. exists (S j).
      split; [reflexivity|].
      apply list_elem_of_In, in_rev. rewrite rev_involutive.
      apply in_seq. fold ps n. lia.
Qed.


(** X19. Arguments are taken one by one, in order: the files chosen for
    two lists of arguments given together are those chosen for the first
    list followed by those chosen for the second. A file named twice is
    chosen twice. *)
Theorem list_target_files_app (a b : list text) (w : world) :
  a ≠ [] -> b ≠ [] ->
  exists pa pb,
    list_target_files a w = (inr pa, w)
    /\ list_target_files b w = (inr pb, w)
    /\ list_target_files (a ++ b) w = (inr (pa ++ pb), w).
Proof.
  intros Ha Hb. unfold list_target_files.
  destruct a as [|x a]; [congruence|]. destruct b as [|y b]; [congruence|].
  change ((x :: a) ++ y :: b) with (x :: (a ++ y :: b)).
  rewrite !filter_keep_eq. eexists _, _.
  split; [reflexivity|]. split; [reflexivity|].
  do 2 f_equal.
  change (x :: (a ++ y :: b)) with ((x :: a) ++ y :: b).
  now rewrite fmap_app, List.filter_app.
Qed.

Lemma main_loop_frame (md : text) (fl : list Path) :
  forall (c : Z) (w : world),
    cwd (snd (main_loop md fl c w)) = cwd w
    /\ clock (snd (main_loop md fl c w)) = clock w
    /\ (forall k, (forall t, t ∈ fl -> locate w t ≠ k) ->
          fs (snd (main_loop md fl c w)) !! k = fs w !! k)
    /\ (length (writes (drop (length (trace w))
                          (trace (snd (main_loop md fl c w)))))
        + length (prints (drop (length (trace w))
                            (trace (snd (main_loop md fl c w)))))
        <= length fl)%nat.
Proof.
  induction fl as [|f fl IH]; intros c w.
  - cbn. rewrite drop_all. repeat split; cbn; lia.
  - assert (Hend : forall (c1 : Z) (w1 : world) (tl : list event),
               cwd w1 = cwd w -> clock w1 = clock w ->
               (forall k, k ≠ locate w f -> fs w1 !! k = fs w !! k) ->
               trace w1 = trace w ++ EvRead f :: tl ->
               (length (writes tl) + length (prints tl) <= 1)%nat ->
               cwd (snd (main_loop md fl c1 w1)) = cwd w
               /\ clock (snd (main_loop md fl c1 w1)) = clock w
               /\ (forall k, (forall t, t ∈ f :: fl -> locate w t ≠ k) ->
                     fs (snd (main_loop md fl c1 w1)) !! k = fs w !! k)
               /\ (length (writes (drop (length (trace w))
                                     (trace (snd (main_loop md fl c1 w1)))))
                   + length (prints (drop (length (trace w))
                                       (trace (snd (main_loop md fl c1
                                                      w1)))))
                   <= length (f :: fl))%nat).
    { intros c1 w1 tl Hcwd Hclock Hfs Htr Hone.
      destruct (IH c1 w1) as (IHcwd & IHclock & IHfs & IHn).
      split; [congruence|]. split; [congruence|]. split.
      - intros k Hk. rewrite IHfs.
        + apply Hfs. intros Heq. apply (Hk f); [constructor | now symmetry].
        + intros t Ht. unfold locate. rewrite Hcwd. apply Hk.
          now constructor.
      - assert (Hext : exists tr2,
                   trace (snd (main_loop md fl c1 w1)) = trace w1 ++ tr2).
        { destruct (main_loop_run md fl c1 w1) as (w2 & tr2 & Hr & Ht & _).
          rewrite Hr. eauto. }
        destruct Hext as [tr2 Ht2]. rewrite Ht2 in IHn |- *.
        rewrite drop_app_length in IHn. rewrite Htr, <- app_assoc.
        rewrite drop_app_length. unfold writes, prints in *.
        cbn [app omap list_omap length]. rewrite !omap_app, !length_app.
        cbn [length]. lia. }
    assert (Hstep : exists (c1 : Z) (w1 : world) (tl : list event),
               main_loop md (f :: fl) c w = main_loop md fl c1 w1
               /\ cwd w1 = cwd w /\ clock w1 = clock w
               /\ (forall k, k ≠ locate w f -> fs w1 !! k = fs w !! k)
               /\ trace w1 = trace w ++ EvRead f :: tl
               /\ (length (writes tl) + length (prints tl) <= 1)%nat).
    { cbn [main_loop]. unfold mbind at 1, M_bind at 1, try_except.
      unfold mbind at 1, M_bind at 1.
      destruct (update_file_cases f md w)
        as [(e & Hrun & _)
           | [[Hrun _] | (f0 & cr & ed & _ & _ & _ & _ & Hrun)]];
        rewrite Hrun.
      - cbn [Exception]. unfold mbind at 1, M_bind at 1, print.
        unfold mret at 1, M_ret at 1.
        eexists c, _, [EvPrint _]. split; [reflexivity|].
        repeat split; cbn; try lia. now rewrite <- app_assoc.
      - unfold mret at 1, M_ret at 1.
        eexists c, _, []. split; [reflexivity|]. repeat split; cbn; lia.
      - unfold mret at 1, M_ret at 1.
        eexists (c + 1)%Z, _, [EvWrite f _]. split; [reflexivity|].
        repeat split; cbn; try lia.
        + intros k Hk. now rewrite lookup_insert_ne.
        + now rewrite <- app_assoc. }
    destruct Hstep as (c1 & w1 & tl & -> & Hcwd & Hclock & Hfs & Htr & Hone).
    now apply (Hend c1 w1 tl).
Qed.

(** X20. What a batch leaves alone. [main] changes no file other than the
    target files, and leaves the working directory and the clock as they
    are; every target file gives at most one write or one warning, so the
    number of files reported as updated plus the number of warnings is at
    most the number of target files. *)
Theorem main_touches_only_targets (args : Namespace) (w : world) :
  exists targets,
    list_target_files (files args) w = (inr targets, w)
    /\ cwd (snd (main args w)) = cwd w
    /\ clock (snd (main args w)) = clock w
    /\ (forall k, (forall t, t ∈ targets -> locate w t ≠ k) ->
          fs (snd (main args w)) !! k = fs w !! k)
    /\ (length (writes (drop (length (trace w)) (trace (snd (main args w)))))
        + length (prints (drop (length (trace w))
                            (trace (snd (main args w)))))
        <= length targets + 1)%nat.
Proof.
  destruct (list_target_files_total (files args) w) as [targets Ht].
  exists targets. split; [exact Ht|].
  destruct (main_loop_frame (mode args) targets 0%Z w)
    as (Hcwd & Hclock & Hfs & Hn).
  destruct (main_loop_run (mode args) targets 0%Z w)
    as (w1 & tr & Hrun & Htr & _).
  unfold main, mbind, M_bind. rewrite Ht.
  rewrite Hrun in *. cbn [fst snd] in *.
  unfold print, mret, M_ret. cbn [snd cwd clock fs trace log].
  split; [exact Hcwd|]. split; [exact Hclock|]. split; [exact Hfs|].
  rewrite Htr in Hn |- *. rewrite drop_app_length in Hn.
  rewrite <- app_assoc, drop_app_length.
  unfold writes, prints in *. rewrite !omap_app, !length_app. cbn. lia.
Qed.


(** ** Further properties: the header read back, and [run_git] *)

Lemma split_from_one_line (sep d y cur : text) :
  sep = [LF] \/ sep = [CR; LF] ->
  one_line d = true ->
  split_from sep O cur (d ++ y) = split_from sep O (rev d ++ cur) y.
Proof.
  intros Hsep Hd. revert cur; induction d as [|c d IH]; intros cur;
    [reflexivity|].
  simpl in Hd. apply andb_true_iff in Hd as [Hc Hd].
  apply andb_true_iff in Hc as [Hcr Hlf]. apply negb_true_iff in Hcr, Hlf.
  change ((c :: d) ++ y) with (c :: d ++ y).
  change (split_from sep 0 cur (c :: d ++ y))
    with (if startswith sep (c :: d ++ y)
          then rev cur :: split_from sep (pred (length sep)) [] (d ++ y)
          else split_from sep 0 (c :: cur) (d ++ y)).
  assert (Hs : startswith sep (c :: d ++ y) = false).
  { destruct Hsep as [-> | ->]; simpl; [now rewrite Hlf | now rewrite Hcr]. }
  rewrite Hs, (IH Hd). simpl. now rewrite <- app_assoc.
Qed.

Lemma split_from_sep (sep y cur : text) :
  sep = [LF] \/ sep = [CR; LF] ->
  split_from sep O cur (sep ++ y) = rev cur :: split_from sep O [] y.
Proof. intros [-> | ->]; reflexivity. Qed.

Lemma split_from_sep_end (sep cur : text) :
  sep = [LF] \/ sep = [CR; LF] ->
  split_from sep O cur sep = [rev cur; []].
Proof. intros [-> | ->]; reflexivity. Qed.

(** X21. The header read back. For time stamps free of CR and LF and a
    terminator LF or CR LF, splitting the rendered header at the terminator
    gives back the nine lines, and the field lines carry the two time
    stamps; so two headers with the same terminator are equal only when
    their dates are. The header has eight line ends, all of the chosen
    kind. *)
Theorem header_read_back (created edited : option text) (eol : text) :
  eol = [LF] \/ eol = [CR; LF] ->
  one_line (or_empty created) = true ->
  one_line (or_empty edited) = true ->
  split eol (build_header created edited eol) = header_lines created edited
  /\ omap field_of_line (split eol (build_header created edited eol))
     = [ (str "Author", AUTHOR); (str "Email", EMAIL);
         (str "Date", or_empty created); (str "LastEditors", AUTHOR);
         (str "LastEditTime", or_empty edited); (str "Description", []) ]
  /\ (forall created' edited',
        one_line (or_empty created') = true ->
        one_line (or_empty edited') = true ->
        build_header created' edited' eol = build_header created edited eol ->
        or_empty created' = or_empty created
        /\ or_empty edited' = or_empty edited)
  /\ crlf_count (build_header created edited eol)
     = (if bool_decide (eol = [LF]) then 0 else 8)%nat
  /\ lone_lf_count false (build_header created edited eol)
     = (if bool_decide (eol = [LF]) then 8 else 0)%nat.
Proof.
  intros Heol Hc He.
  assert (Hsplit : forall c e,
             one_line (or_empty c) = true -> one_line (or_empty e) = true ->
             split eol (build_header c e eol) = header_lines c e).
  { intros c e Hc' He'. unfold split. rewrite build_header_eq.
    rewrite <- !app_assoc.
    repeat first
      [ rewrite (split_from_one_line eol (or_empty c)) by assumption
      | rewrite (split_from_one_line eol (or_empty e)) by assumption
      | rewrite (split_from_sep eol) by assumption
      | rewrite (split_from_one_line eol (str _)) by (auto; reflexivity) ].
    rewrite (split_from_sep_end eol) by assumption.
    rewrite !app_nil_r, ?rev_app_distr, !rev_involutive.
    reflexivity. }
  split; [now apply Hsplit|].
  split; [rewrite Hsplit by assumption; reflexivity|]. split.
  - intros c' e' Hc' He' Heq.
    apply (f_equal (split eol)) in Heq. rewrite !Hsplit in Heq by assumption.
    unfold header_lines in Heq. cbv zeta in Heq.
    injection Heq as H1 H2. split; assumption.
  - destruct (header_counts created edited [] Hc He)
      as [[Hc1 Hl1] [Hc2 Hl2]].
    rewrite !app_nil_r in Hc1, Hl1, Hc2, Hl2. destruct Heol as [-> | ->].
    + rewrite bool_decide_eq_true_2 by reflexivity.
      split; [exact Hc1 | exact Hl1].
    + rewrite bool_decide_eq_false_2 by discriminate.
      split; [exact Hc2 | exact Hl2].
Qed.

(** X22. The contract of [run_git]. It never raises [CalledProcessError]
    and never changes the world; what it returns has no white space around
    it; it raises exactly the exceptions of the subprocess call other than
    [CalledProcessError]. *)
Theorem run_git_contract (args : list text) (d : Path) (w : world) :
  snd (run_git args d w) = w
  /\ fst (run_git args d w) ≠ inl CalledProcessError
  /\ (forall r, fst (run_git args d w) = inr r -> strip r = r)
  /\ (forall e, fst (run_git args d w) = inl e
                <-> proc w d (str "git" :: args) = inl e
                    /\ e ≠ CalledProcessError).
Proof.
  rewrite run_git_eq.
  destruct (proc w d (str "git" :: args)) as [e|out]; [destruct e|];
    cbn [fst snd]; repeat split; try congruence; try discriminate;
    try (intros r [= <-]; apply strip_idem);
    try (intros [H1 H2]; congruence);
    try (intros r [= <-]; reflexivity).
Qed.

End Script.

(** ** The model at work *)

Example str_lit : str "/*" = [47; 42].
Proof. reflexivity. Qed.

Example count_ex : count (str "aa") (str "aaaaa") = 2%Z.
Proof. reflexivity. Qed.

Example split_ex :
  split (str " +") (str "a +b + +") = [str "a"; str "b"; []; []]
  /\ split (str " +") (str "ab") = [str "ab"].
Proof. split; reflexivity. Qed.

Example splitlines_ex :
  splitlines [97; CR; LF; 98; LF; LF; 99; CR] = [[97]; [98]; []; [99]]
  /\ splitlines [] = [] /\ splitlines [LF] = [[]].
Proof. repeat split; reflexivity. Qed.

Example strip_ex : strip (str "  a b ") = str "a b".
Proof. reflexivity. Qed.

Example join_ex : join (str ", ") [str "a"; str "b"; []] = str "a, b, ".
Proof. reflexivity. Qed.

Example str_of_int_ex : str_of_int 12 = str "12" /\ str_of_int 0 = str "0".
Proof. split; reflexivity. Qed.

Example HEADER_RE_ex :
  Re.match_ HEADER_RE (str "/* a */  x") = Some 9%nat
  /\ Re.match_ HEADER_RE (str "/*/ x") = None
  /\ Re.match_ HEADER_RE (str " /* a */") = None.
Proof. repeat split; reflexivity. Qed.

Example strftime_utc_ex :
  strftime_utc 1704103200 = str "2024-01-01 10:00:00"
  /\ strftime_utc 951782400 = str "2000-02-29 00:00:00".
Proof. split; vm_compute; reflexivity. Qed.

Example normalize_datetime_ex :
  normalize_datetime (Some (str "2024-01-01 10:00:00 +0800"))
  = Some (str "2024-01-01 10:00:00")
  /\ normalize_datetime (Some []) = None
  /\ normalize_datetime None = None.
Proof. repeat split; reflexivity. Qed.

Example path_ex :
  truediv (MkPath true [str "repo"]) (str "src/./x.cpp")
  = MkPath true [str "repo"; str "src"; str "x.cpp"]
  /\ suffix (Path_of (str "a/b/c.cpp")) = str ".cpp"
  /\ suffix (Path_of (str ".cpp")) = []
  /\ should_skip (Path_of (str "/a/build/c.cpp")) = true
  /\ should_skip (Path_of (str "/a/b/build")) = false.
Proof. repeat split; vm_compute; reflexivity. Qed.

(** The scenario of the specification: a new file [widget.cpp] without git
    history, created 2024-01-01 10:00:00 and modified 2024-01-02 09:00:00,
    gets the header with these two dates in front of its text. *)
Example widget_scenario :
  fst (update_file strftime_utc ex_script ex_path (str "git")
         (ex_untracked (str "int main() {}" ++ [LF])))
  = inr true
  /\ content (snd (update_file strftime_utc ex_script ex_path (str "git")
                     (ex_untracked (str "int main() {}" ++ [LF]))))
             ex_path
     = Some (str "/*" ++ [LF]
             ++ str " * @Author: wuxiaoxiao" ++ [LF]
             ++ str " * @Email: wuxiaoxiao@gmail.com" ++ [LF]
             ++ str " * @Date: 2024-01-01 10:00:00" ++ [LF]
             ++ str " * @LastEditors: wuxiaoxiao" ++ [LF]
             ++ str " * @LastEditTime: 2024-01-02 09:00:00" ++ [LF]
             ++ str " * @Description: " ++ [LF]
             ++ str " */" ++ [LF]
             ++ str "int main() {}" ++ [LF]).
Proof. split; vm_compute; reflexivity. Qed.

(** ** The theorems at concrete inputs *)



(** C3 fails on a text that starts with an empty line: the first run puts
    the header in front, and the second run, with the same time stamps,
    takes the empty line for white space after the header, removes it and
    writes the file again. *)
Lemma second_run_writes_again :
  (fst (derive_dates strftime_utc ex_script ex_path (str "git")
          (snd (update_file strftime_utc ex_script ex_path (str "git")
                  (ex_tracked ex_blank))))
   = fst (derive_dates strftime_utc ex_script ex_path (str "git")
            (ex_tracked ex_blank))
   /\ content (snd (update_file strftime_utc ex_script ex_path (str "git")
                      (ex_tracked ex_blank))) ex_path
      = Some (build_header ex_stamp ex_stamp [LF] ++ ex_blank)
   /\ fst (update_file strftime_utc ex_script ex_path (str "git")
             (snd (update_file strftime_utc ex_script ex_path (str "git")
                     (ex_tracked ex_blank))))
      = inr true
   /\ content
        (snd (update_file strftime_utc ex_script ex_path (str "git")
                (snd (update_file strftime_utc ex_script ex_path (str "git")
                        (ex_tracked ex_blank))))) ex_path
      = Some (build_header ex_stamp ex_stamp [LF] ++ ex_plain)
   /\ build_header ex_stamp ex_stamp [LF] ++ ex_plain
      ≠ build_header ex_stamp ex_stamp [LF] ++ ex_blank)
  /\ ~ (forall (path : Path) (w w1 : world) (b : bool)
               (created edited : option (list N)),
          fst (derive_dates strftime_utc ex_script path (str "git") w)
          = inr (created, edited) ->
          update_file strftime_utc ex_script path (str "git") w
          = (inr b, w1) ->
          fst (derive_dates strftime_utc ex_script path (str "git") w1)
          = inr (created, edited) ->
          update_file strftime_utc ex_script path (str "git") w1
          = (inr false, log (EvRead path) w1)).
Proof.
  split.
  - split; [vm_compute; reflexivity|].
    split; [vm_compute; reflexivity|].
    split; [vm_compute; reflexivity|].
    split; [vm_compute; reflexivity|].
    vm_compute. discriminate.
  - intros H.
    specialize (H ex_path (ex_tracked ex_blank)
                  (snd (update_file strftime_utc ex_script ex_path (str "git")
                          (ex_tracked ex_blank)))
                  true ex_stamp ex_stamp).
    apply (f_equal fst) in H; [vm_compute in H; discriminate | | |];
      vm_compute; reflexivity.
Qed.

Lemma second_run_writes_nothing_witness :
  (content (ex_tracked ex_plain) ex_path = Some ex_plain
   /\ fst (derive_dates strftime_utc ex_script ex_path (str "git")
             (ex_tracked ex_plain))
      = inr (ex_stamp, ex_stamp)
   /\ update_file strftime_utc ex_script ex_path (str "git")
        (ex_tracked ex_plain)
      = (inr true,
         snd (update_file strftime_utc ex_script ex_path (str "git")
                (ex_tracked ex_plain)))
   /\ content (snd (update_file strftime_utc ex_script ex_path (str "git")
                      (ex_tracked ex_plain))) ex_path
      = Some (build_header ex_stamp ex_stamp [LF] ++ ex_plain)
   /\ fst (derive_dates strftime_utc ex_script ex_path (str "git")
             (snd (update_file strftime_utc ex_script ex_path (str "git")
                     (ex_tracked ex_plain))))
      = inr (ex_stamp, ex_stamp)
   /\ contains (str "*/") (or_empty ex_stamp) = false
   /\ contains (str "*/") (or_empty ex_stamp) = false
   /\ detect_eol (build_header ex_stamp ex_stamp [LF] ++ ex_plain)
      = detect_eol ex_plain
   /\ lstrip (drop (length (build_header ex_stamp ex_stamp
                              (detect_eol ex_plain)))
                (build_header ex_stamp ex_stamp [LF] ++ ex_plain))
      = drop (length (build_header ex_stamp ex_stamp (detect_eol ex_plain)))
          (build_header ex_stamp ex_stamp [LF] ++ ex_plain))
  /\ update_file strftime_utc ex_script ex_path (str "git")
       (snd (update_file strftime_utc ex_script ex_path (str "git")
               (ex_tracked ex_plain)))
     = (inr false,
        log (EvRead ex_path)
          (snd (update_file strftime_utc ex_script ex_path (str "git")
                  (ex_tracked ex_plain))))
  /\ forall (p : Path) (m : list N) (w0 : world) (t : list N),
       (p, t) ∈ writes (drop (length (trace w0))
                          (trace (snd (update_file strftime_utc ex_script
                                         p m w0)))) ->
       content w0 p ≠ Some t.
Proof.
  assert (H1 : content (ex_tracked ex_plain) ex_path = Some ex_plain)
    by (vm_compute; reflexivity).
  assert (H2 : fst (derive_dates strftime_utc ex_script ex_path (str "git")
                      (ex_tracked ex_plain))
               = inr (ex_stamp, ex_stamp)) by (vm_compute; reflexivity).
  assert (H3 : update_file strftime_utc ex_script ex_path (str "git")
                 (ex_tracked ex_plain)
               = (inr true,
                  snd (update_file strftime_utc ex_script ex_path (str "git")
                         (ex_tracked ex_plain))))
    by (vm_compute; reflexivity).
  assert (H4 : content
                 (snd (update_file strftime_utc ex_script ex_path (str "git")
                         (ex_tracked ex_plain))) ex_path
               = Some (build_header ex_stamp ex_stamp [LF] ++ ex_plain))
    by (vm_compute; reflexivity).
  assert (H5 : fst (derive_dates strftime_utc ex_script ex_path (str "git")
                      (snd (update_file strftime_utc ex_script ex_path
                              (str "git") (ex_tracked ex_plain))))
               = inr (ex_stamp, ex_stamp)) by (vm_compute; reflexivity).
  assert (H6 : contains (str "*/") (or_empty ex_stamp) = false)
    by (vm_compute; reflexivity).
  assert (H7 : detect_eol (build_header ex_stamp ex_stamp [LF] ++ ex_plain)
               = detect_eol ex_plain) by (vm_compute; reflexivity).
  assert (H8 : lstrip (drop (length (build_header ex_stamp ex_stamp
                                       (detect_eol ex_plain)))
                         (build_header ex_stamp ex_stamp [LF] ++ ex_plain))
               = drop (length (build_header ex_stamp ex_stamp
                                 (detect_eol ex_plain)))
                   (build_header ex_stamp ex_stamp [LF] ++ ex_plain))
    by (vm_compute; reflexivity).
  split; [repeat split; assumption|].
  exact (second_run_writes_nothing strftime_utc ex_script ex_path
           (ex_tracked ex_plain)
           (snd (update_file strftime_utc ex_script ex_path (str "git")
                   (ex_tracked ex_plain)))
           true ex_plain (build_header ex_stamp ex_stamp [LF] ++ ex_plain)
           ex_stamp ex_stamp H1 H2 H3 H4 H5 H6 H6 H7 H8).
Defined.


Lemma nonzero_exit_falls_back_witness :
  ((proc (ex_no_repo ex_plain) (REPO_ROOT ex_script)
      (str "git" :: created_query ex_path) = inl CalledProcessError
    \/ exists out, proc (ex_no_repo ex_plain) (REPO_ROOT ex_script)
                     (str "git" :: created_query ex_path) = inr out)
   /\ (proc (ex_no_repo ex_plain) (REPO_ROOT ex_script)
         (str "git" :: last_query ex_path) = inl CalledProcessError
       \/ exists out, proc (ex_no_repo ex_plain) (REPO_ROOT ex_script)
                        (str "git" :: last_query ex_path) = inr out))
  /\ run_git (created_query ex_path) (REPO_ROOT ex_script)
       (ex_no_repo ex_plain) = (inr [], ex_no_repo ex_plain)
  /\ run_git (last_query ex_path) (REPO_ROOT ex_script)
       (ex_no_repo ex_plain) = (inr [], ex_no_repo ex_plain)
  /\ derive_dates strftime_utc ex_script ex_path (str "git")
       (ex_no_repo ex_plain)
     = (inr (Some (str "2024-01-01 10:00:00"),
             Some (str "2024-01-02 09:00:00")), ex_no_repo ex_plain).
Proof.
  assert (Hc : proc (ex_no_repo ex_plain) (REPO_ROOT ex_script)
                 (str "git" :: created_query ex_path) = inl CalledProcessError)
    by reflexivity.
  assert (Hl : proc (ex_no_repo ex_plain) (REPO_ROOT ex_script)
                 (str "git" :: last_query ex_path) = inl CalledProcessError)
    by reflexivity.
  destruct (nonzero_exit_falls_back strftime_utc ex_script ex_path (str "git")
              (ex_no_repo ex_plain) (or_introl Hc) (or_introl Hl))
    as (created & edited & fc & fl & Hd & Hfs & Hcreated & Hedited).
  destruct (Hcreated Hc) as [Hrc ->]. destruct (Hedited Hl) as [Hrl Hlast].
  rewrite Hlast in Hd by discriminate.
  assert (Hfc : fc = Some (str "2024-01-01 10:00:00")
                /\ fl = Some (str "2024-01-02 09:00:00")).
  { apply (f_equal fst) in Hfs. vm_compute in Hfs.
    injection Hfs as <- <-. split; vm_compute; reflexivity. }
  destruct Hfc as [-> ->].
  split; [split; left; assumption|]. split; [exact Hrc|].
  split; [exact Hrl | exact Hd].
Defined.

(** C6 fails when git cannot be started: the exception of the query is not
    a [CalledProcessError], leaves [update_file] with the file untouched,
    and comes out as a warning line of [main]. *)
Lemma git_not_started_surfaces :
  (proc (ex_no_git ex_plain) (REPO_ROOT ex_script)
     (str "git" :: created_query ex_path) = inl FileNotFoundError
   /\ fst (derive_dates strftime_utc ex_script ex_path (str "git")
             (ex_no_git ex_plain)) = inl FileNotFoundError
   /\ fst (update_file strftime_utc ex_script ex_path (str "git")
             (ex_no_git ex_plain)) = inl FileNotFoundError
   /\ content (snd (update_file strftime_utc ex_script ex_path (str "git")
                      (ex_no_git ex_plain))) ex_path
      = Some ex_plain
   /\ prints (trace (snd (main strftime_utc ex_str_exn ex_script
                            {| files := [str "widget.cpp"];
                               mode := str "git" |}
                            (ex_no_git ex_plain))))
      = [ str "[WARN] Failed updating /repo/widget.cpp: FileNotFoundError";
          str "Updated headers in 0 file(s)" ])
  /\ ~ (forall (path : Path) (w : world) (e : exn),
          proc w (REPO_ROOT ex_script) (str "git" :: created_query path)
          = inl e ->
          exists d, derive_dates strftime_utc ex_script path (str "git") w
                    = (inr d, w)).
Proof.
  split; [repeat split; vm_compute; reflexivity|].
  intros H.
  destruct (H ex_path (ex_no_git ex_plain) FileNotFoundError eq_refl)
    as [d Hd].
  apply (f_equal fst) in Hd. vm_compute in Hd. discriminate.
Qed.





(** ** The further properties at concrete inputs *)

Lemma former_header_is_replaced_witness :
  (([LF] : list N) = [LF] \/ ([LF] : list N) = [CR; LF])
  /\ contains (str "*/") (or_empty ex_stamp) = false
  /\ splice (build_header ex_stamp None [CR; LF])
       (build_header ex_stamp ex_stamp [LF] ++ ex_blank)
     = (build_header ex_stamp None [CR; LF] ++ lstrip ex_blank, true)
  /\ lstrip ex_blank = ex_plain.
Proof.
  assert (H1 : ([LF] : list N) = [LF] \/ ([LF] : list N) = [CR; LF])
    by (left; reflexivity).
  assert (H2 : contains (str "*/") (or_empty ex_stamp) = false)
    by (vm_compute; reflexivity).
  split; [exact H1|]. split; [exact H2|]. split; [|reflexivity].
  exact (proj1 (former_header_is_replaced ex_stamp ex_stamp [LF]
                  (build_header ex_stamp None [CR; LF]) ex_blank H1 H2 H2)).
Defined.

Lemma detect_eol_uniform_witness :
  forallb (fun c => negb (c =? CR)) ex_plain = true
  /\ Forall (fun l => one_line l = true) [str "a"; str "b"]
  /\ detect_eol ex_plain = [LF]
  /\ detect_eol (crlf_lines [str "a"; str "b"]) = [CR; LF].
Proof.
  assert (H1 : forallb (fun c => negb (c =? CR)) ex_plain = true)
    by (vm_compute; reflexivity).
  assert (H2 : Forall (fun l => one_line l = true) [str "a"; str "b"])
    by (repeat constructor).
  destruct (detect_eol_uniform ex_plain [str "a"; str "b"]) as [Hlf Hcrlf].
  split; [exact H1|]. split; [exact H2|].
  split; [exact (Hlf H1) | exact (Hcrlf H2)].
Defined.

Lemma header_keeps_line_ending_witness :
  one_line (or_empty ex_stamp) = true
  /\ detect_eol (build_header ex_stamp ex_stamp
                   (detect_eol (crlf_lines [str "a"; str "b"]))
                 ++ crlf_lines [str "a"; str "b"])
     = detect_eol (crlf_lines [str "a"; str "b"])
  /\ detect_eol (crlf_lines [str "a"; str "b"]) = [CR; LF].
Proof.
  assert (H1 : one_line (or_empty ex_stamp) = true)
    by (vm_compute; reflexivity).
  split; [exact H1|]. split; [|vm_compute; reflexivity].
  exact (proj1 (header_keeps_line_ending ex_stamp ex_stamp
                  (crlf_lines [str "a"; str "b"]) H1 H1)).
Defined.



Lemma read_only_file_left_writable_witness :
  (fs (ex_readonly ex_plain true) !! locate (ex_readonly ex_plain true) ex_path
   = Some (MkFile ex_plain (Some ex_stat) false true)
   /\ fst (derive_dates strftime_utc ex_script ex_path (str "git")
             (ex_readonly ex_plain true))
      = inr (ex_stamp, ex_stamp)
   /\ fst (splice (build_header ex_stamp ex_stamp (detect_eol ex_plain))
                  ex_plain) ≠ ex_plain)
  /\ fst (update_file strftime_utc ex_script ex_path (str "git")
            (ex_readonly ex_plain true)) = inr true
  /\ fs (snd (update_file strftime_utc ex_script ex_path (str "git")
                (ex_readonly ex_plain true)))
     !! locate (ex_readonly ex_plain true) ex_path
     = Some (MkFile
               (fst (splice (build_header ex_stamp ex_stamp
                               (detect_eol ex_plain)) ex_plain))
               (Some ex_stat) true true).
Proof.
  assert (H1 : fs (ex_readonly ex_plain true)
               !! locate (ex_readonly ex_plain true) ex_path
               = Some (MkFile ex_plain (Some ex_stat) false true))
    by (vm_compute; reflexivity).
  assert (H2 : fst (derive_dates strftime_utc ex_script ex_path (str "git")
                      (ex_readonly ex_plain true))
               = inr (ex_stamp, ex_stamp)) by (vm_compute; reflexivity).
  assert (H3 : fst (splice (build_header ex_stamp ex_stamp
                              (detect_eol ex_plain)) ex_plain) ≠ ex_plain)
    by (vm_compute; discriminate).
  split; [repeat split; assumption|].
  exact (read_only_file_left_writable strftime_utc ex_script ex_path
           (str "git") (ex_readonly ex_plain true)
           (MkFile ex_plain (Some ex_stat) false true) ex_stamp ex_stamp
           H1 H2 H3 eq_refl eq_refl).
Defined.

Lemma other_modes_are_git_witness :
  str "dry-run" ≠ str "commit"
  /\ update_file strftime_utc ex_script ex_path (str "dry-run")
       (ex_tracked ex_plain)
     = update_file strftime_utc ex_script ex_path (str "git")
         (ex_tracked ex_plain).
Proof.
  assert (H1 : str "dry-run" ≠ str "commit") by (vm_compute; discriminate).
  split; [exact H1|].
  exact (other_modes_are_git strftime_utc ex_script ex_path (str "dry-run")
           (ex_tracked ex_plain) H1).
Defined.

Lemma rerun_after_insert_writes_nothing_witness :
  (content (ex_tracked ex_foreign) ex_path = Some ex_foreign
   /\ fst (derive_dates strftime_utc ex_script ex_path (str "git")
             (ex_tracked ex_foreign))
      = inr (ex_stamp, ex_stamp)
   /\ update_file strftime_utc ex_script ex_path (str "git")
        (ex_tracked ex_foreign)
      = (inr true,
         snd (update_file strftime_utc ex_script ex_path (str "git")
                (ex_tracked ex_foreign)))
   /\ fst (derive_dates strftime_utc ex_script ex_path (str "git")
             (snd (update_file strftime_utc ex_script ex_path (str "git")
                     (ex_tracked ex_foreign))))
      = inr (ex_stamp, ex_stamp)
   /\ one_line (or_empty ex_stamp) = true
   /\ contains (str "*/") (or_empty ex_stamp) = false
   /\ lstrip ex_foreign = ex_foreign
   /\ (no_leading_block ex_foreign
       \/ exists body ws rest,
            leading_block ex_foreign body ws rest
            /\ has_marker (str "/*" ++ body ++ str "*/" ++ ws) = false))
  /\ content (snd (update_file strftime_utc ex_script ex_path (str "git")
                     (ex_tracked ex_foreign))) ex_path
     = Some (build_header ex_stamp ex_stamp (detect_eol ex_foreign)
             ++ ex_foreign)
  /\ update_file strftime_utc ex_script ex_path (str "git")
       (snd (update_file strftime_utc ex_script ex_path (str "git")
               (ex_tracked ex_foreign)))
     = (inr false,
        log (EvRead ex_path)
          (snd (update_file strftime_utc ex_script ex_path (str "git")
                  (ex_tracked ex_foreign)))).
Proof.
  assert (H1 : content (ex_tracked ex_foreign) ex_path = Some ex_foreign)
    by (vm_compute; reflexivity).
  assert (H2 : fst (derive_dates strftime_utc ex_script ex_path (str "git")
                      (ex_tracked ex_foreign))
               = inr (ex_stamp, ex_stamp)) by (vm_compute; reflexivity).
  assert (H3 : update_file strftime_utc ex_script ex_path (str "git")
                 (ex_tracked ex_foreign)
               = (inr true,
                  snd (update_file strftime_utc ex_script ex_path (str "git")
                         (ex_tracked ex_foreign))))
    by (vm_compute; reflexivity).
  assert (H4 : fst (derive_dates strftime_utc ex_script ex_path (str "git")
                      (snd (update_file strftime_utc ex_script ex_path
                              (str "git") (ex_tracked ex_foreign))))
               = inr (ex_stamp, ex_stamp)) by (vm_compute; reflexivity).
  assert (H5 : one_line (or_empty ex_stamp) = true)
    by (vm_compute; reflexivity).
  assert (H6 : contains (str "*/") (or_empty ex_stamp) = false)
    by (vm_compute; reflexivity).
  assert (H7 : lstrip ex_foreign = ex_foreign) by (vm_compute; reflexivity).
  assert (H8 : no_leading_block ex_foreign
               \/ exists body ws rest,
                    leading_block ex_foreign body ws rest
                    /\ has_marker (str "/*" ++ body ++ str "*/" ++ ws)
                       = false).
  { right. exists (str " Licence "), [LF], ex_plain.
    repeat split; vm_compute; reflexivity. }
  split; [repeat split; assumption|].
  exact (rerun_after_insert_writes_nothing strftime_utc ex_script ex_path
           (ex_tracked ex_foreign)
           (snd (update_file strftime_utc ex_script ex_path (str "git")
                   (ex_tracked ex_foreign)))
           true ex_foreign ex_stamp ex_stamp H1 H2 H3 H4 H5 H5 H6 H6 H7 H8).
Defined.

Lemma mode_only_sets_last_edit_time_witness :
  sum_map id fst
    (fst (derive_dates strftime_utc ex_script ex_path (str "git")
            (ex_tracked ex_plain)))
  = sum_map id fst
      (fst (derive_dates strftime_utc ex_script ex_path (str "commit")
              (ex_tracked ex_plain)))
  /\ fst (derive_dates strftime_utc ex_script ex_path (str "commit")
            (ex_tracked ex_plain))
     = inr (ex_stamp, Some (str "2023-11-14 22:13:20"))
  /\ Some (str "2023-11-14 22:13:20")
     = Some (strftime_utc (clock (ex_tracked ex_plain))).
Proof.
  destruct (mode_only_sets_last_edit_time strftime_utc ex_script ex_path
              (str "git") (str "commit") (ex_tracked ex_plain))
    as [Hsame Hcommit].
  assert (H1 : fst (derive_dates strftime_utc ex_script ex_path (str "commit")
                      (ex_tracked ex_plain))
               = inr (ex_stamp, Some (str "2023-11-14 22:13:20")))
    by (vm_compute; reflexivity).
  split; [exact Hsame|]. split; [exact H1|].
  exact (Hcommit ex_stamp (Some (str "2023-11-14 22:13:20")) H1).
Defined.

Lemma git_dates_take_precedence_witness :
  (get_git_dates ex_script ex_path (ex_no_stat ex_plain (inr ex_git_stamp))
   = (inr (Some (str "2024-01-01 10:00:00 +0800"),
           Some (str "2024-01-01 10:00:00 +0800")),
      ex_no_stat ex_plain (inr ex_git_stamp))
   /\ str "2024-01-01 10:00:00 +0800" ≠ [])
  /\ derive_dates strftime_utc ex_script ex_path (str "git")
       (ex_no_stat ex_plain (inr ex_git_stamp))
     = (inr (normalize_datetime (Some (str "2024-01-01 10:00:00 +0800")),
             normalize_datetime (Some (str "2024-01-01 10:00:00 +0800"))),
        ex_no_stat ex_plain (inr ex_git_stamp))
  /\ normalize_datetime (Some (str "2024-01-01 10:00:00 +0800")) = ex_stamp.
Proof.
  assert (H1 : get_git_dates ex_script ex_path
                 (ex_no_stat ex_plain (inr ex_git_stamp))
               = (inr (Some (str "2024-01-01 10:00:00 +0800"),
                       Some (str "2024-01-01 10:00:00 +0800")),
                  ex_no_stat ex_plain (inr ex_git_stamp)))
    by (vm_compute; reflexivity).
  assert (H2 : str "2024-01-01 10:00:00 +0800" ≠ [])
    by (vm_compute; discriminate).
  split; [split; assumption|]. split; [|vm_compute; reflexivity].
  exact (proj1 (git_dates_take_precedence strftime_utc ex_script ex_path
                  (ex_no_stat ex_plain (inr ex_git_stamp))
                  (str "2024-01-01 10:00:00 +0800")
                  (str "2024-01-01 10:00:00 +0800") H1 H2 H2)).
Defined.

Lemma no_dates_gives_empty_fields_witness :
  (fs (ex_no_stat ex_plain (inr [])) !! locate (ex_no_stat ex_plain (inr []))
                                          ex_path
   = Some (MkFile ex_plain None true true)
   /\ get_git_dates ex_script ex_path (ex_no_stat ex_plain (inr []))
      = (inr (None, None), ex_no_stat ex_plain (inr [])))
  /\ derive_dates strftime_utc ex_script ex_path (str "git")
       (ex_no_stat ex_plain (inr []))
     = (inr (None, None), ex_no_stat ex_plain (inr []))
  /\ exists (b : bool) (w' : world) (rest : list N),
       update_file strftime_utc ex_script ex_path (str "git")
         (ex_no_stat ex_plain (inr [])) = (inr b, w')
       /\ content w' ex_path
          = Some (build_header None None
                    (detect_eol (f_data (MkFile ex_plain None true true)))
                  ++ rest)
       /\ omap field_of_line (header_lines None None)
          = [ (str "Author", AUTHOR); (str "Email", EMAIL);
              (str "Date", []); (str "LastEditors", AUTHOR);
              (str "LastEditTime", []); (str "Description", []) ].
Proof.
  assert (H1 : fs (ex_no_stat ex_plain (inr []))
               !! locate (ex_no_stat ex_plain (inr [])) ex_path
               = Some (MkFile ex_plain None true true))
    by (vm_compute; reflexivity).
  assert (H2 : get_git_dates ex_script ex_path (ex_no_stat ex_plain (inr []))
               = (inr (None, None), ex_no_stat ex_plain (inr [])))
    by (vm_compute; reflexivity).
  destruct (no_dates_gives_empty_fields strftime_utc ex_script ex_path
              (ex_no_stat ex_plain (inr []))
              (MkFile ex_plain None true true) H1 eq_refl H2 eq_refl)
    as (_ & Hd & Hupd).
  split; [split; assumption|]. split; [exact Hd | exact Hupd].
Defined.

Lemma normalize_datetime_plus_offset_witness :
  (str "2024-01-01 10:00:00" ≠ []
   /\ strip (str "2024-01-01 10:00:00") = str "2024-01-01 10:00:00"
   /\ contains (str " +") (str "2024-01-01 10:00:00") = false)
  /\ normalize_datetime
       (Some (str "2024-01-01 10:00:00" ++ str " +" ++ str "0800"))
     = Some (str "2024-01-01 10:00:00").
Proof.
  assert (H1 : str "2024-01-01 10:00:00" ≠ []) by (vm_compute; discriminate).
  assert (H2 : strip (str "2024-01-01 10:00:00") = str "2024-01-01 10:00:00")
    by (vm_compute; reflexivity).
  assert (H3 : contains (str " +") (str "2024-01-01 10:00:00") = false)
    by (vm_compute; reflexivity).
  split; [repeat split; assumption|].
  exact (normalize_datetime_plus_offset (str "2024-01-01 10:00:00")
           (str "0800") H1 H2 H3).
Defined.

Lemma normalize_datetime_result_witness :
  normalize_datetime (Some (str " 2024-01-01 10:00:00  +0800 +x"))
  = Some (str "2024-01-01 10:00:00")
  /\ strip (str "2024-01-01 10:00:00") = str "2024-01-01 10:00:00"
  /\ contains (str " +") (str "2024-01-01 10:00:00") = false
  /\ normalize_datetime (Some (str "2024-01-01 10:00:00"))
     = or_None (str "2024-01-01 10:00:00").
Proof.
  assert (H1 : normalize_datetime
                 (Some (str " 2024-01-01 10:00:00  +0800 +x"))
               = Some (str "2024-01-01 10:00:00"))
    by (vm_compute; reflexivity).
  split; [exact H1|].
  exact (proj2 (normalize_datetime_result
                  (Some (str " 2024-01-01 10:00:00  +0800 +x")))
           (str "2024-01-01 10:00:00") H1).
Defined.

Lemma creation_date_is_last_line_witness :
  (proc (ex_history ex_plain) (REPO_ROOT ex_script)
     (str "git" :: created_query ex_path) = inr ex_log
   /\ proc (ex_history ex_plain) (REPO_ROOT ex_script)
        (str "git" :: last_query ex_path) = inr ex_log
   /\ strip ex_log ≠ [])
  /\ get_git_dates ex_script ex_path (ex_history ex_plain)
     = (inr (match strip ex_log with
             | [] => None
             | _ => last (splitlines (strip ex_log))
             end, or_None (strip ex_log)), ex_history ex_plain)
  /\ last (splitlines (strip ex_log))
     = Some (str "2024-01-01 10:00:00 +0800")
  /\ exists l, last (splitlines (strip ex_log)) = Some l /\ l ≠ [].
Proof.
  assert (H1 : proc (ex_history ex_plain) (REPO_ROOT ex_script)
                 (str "git" :: created_query ex_path) = inr ex_log)
    by reflexivity.
  assert (H2 : proc (ex_history ex_plain) (REPO_ROOT ex_script)
                 (str "git" :: last_query ex_path) = inr ex_log)
    by reflexivity.
  assert (H3 : strip ex_log ≠ []) by (vm_compute; discriminate).
  destruct (creation_date_is_last_line ex_script ex_path (ex_history ex_plain)
              ex_log ex_log H1 H2) as [Hg Hlast].
  split; [repeat split; assumption|].
  split; [exact Hg|]. split; [vm_compute; reflexivity | exact (Hlast H3)].
Defined.

Lemma should_skip_iff_witness :
  (exists d, d ∈ dirs (Path_of (str "/repo/build/x.cpp")) /\ d ∈ SKIP_DIRS)
  /\ should_skip (Path_of (str "/repo/build/x.cpp")) = true
  /\ should_skip (Path_of (str "/repo/src/build")) = false.
Proof.
  assert (H1 : exists d, d ∈ dirs (Path_of (str "/repo/build/x.cpp"))
                         /\ d ∈ SKIP_DIRS).
  { exists (str "build"). split.
    - apply list_elem_of_In. vm_compute. auto.
    - assert (H : bool_decide (str "build" ∈ SKIP_DIRS) = true)
        by (vm_compute; reflexivity).
      now apply bool_decide_eq_true in H. }
  split; [exact H1|]. split; [|vm_compute; reflexivity].
  exact (proj2 (should_skip_iff (Path_of (str "/repo/build/x.cpp"))) H1).
Defined.

Lemma list_target_files_app_witness :
  ([str "widget.cpp"] ≠ [] /\ [str "/repo/widget.cpp"] ≠ [])
  /\ exists pa pb,
       list_target_files ex_script [str "widget.cpp"] (ex_tracked ex_plain)
       = (inr pa, ex_tracked ex_plain)
       /\ list_target_files ex_script [str "/repo/widget.cpp"]
            (ex_tracked ex_plain)
          = (inr pb, ex_tracked ex_plain)
       /\ list_target_files ex_script
            ([str "widget.cpp"] ++ [str "/repo/widget.cpp"])
            (ex_tracked ex_plain)
          = (inr (pa ++ pb), ex_tracked ex_plain).
Proof.
  assert (H1 : [str "widget.cpp"] ≠ []) by discriminate.
  assert (H2 : [str "/repo/widget.cpp"] ≠ []) by discriminate.
  split; [split; assumption|].
  exact (list_target_files_app ex_script [str "widget.cpp"]
           [str "/repo/widget.cpp"] (ex_tracked ex_plain) H1 H2).
Defined.

Lemma main_touches_only_targets_witness :
  list_target_files ex_script [str "widget.cpp"; str "notes.txt"]
    (ex_two_files ex_plain)
  = (inr [ex_path], ex_two_files ex_plain)
  /\ fs (snd (main strftime_utc ex_str_exn ex_script
                {| files := [str "widget.cpp"; str "notes.txt"];
                   mode := str "git" |}
                (ex_two_files ex_plain))) !! parts ex_other
     = fs (ex_two_files ex_plain) !! parts ex_other.
Proof.
  assert (H1 : list_target_files ex_script [str "widget.cpp"; str "notes.txt"]
                 (ex_two_files ex_plain)
               = (inr [ex_path], ex_two_files ex_plain))
    by (vm_compute; reflexivity).
  destruct (main_touches_only_targets strftime_utc ex_str_exn ex_script
              {| files := [str "widget.cpp"; str "notes.txt"];
                 mode := str "git" |}
              (ex_two_files ex_plain))
    as (targets & Ht & _ & _ & Hfs & _).
  change (files {| files := [str "widget.cpp"; str "notes.txt"];
                   mode := str "git" |})
    with [str "widget.cpp"; str "notes.txt"] in Ht.
  rewrite H1 in Ht. injection Ht as <-.
  split; [exact H1|]. apply Hfs.
  intros t Ht. apply list_elem_of_singleton in Ht. subst t.
  vm_compute. discriminate.
Defined.

Lemma header_read_back_witness :
  ((([CR; LF] : list N) = [LF] \/ ([CR; LF] : list N) = [CR; LF])
   /\ one_line (or_empty ex_stamp) = true
   /\ one_line (or_empty None) = true)
  /\ split [CR; LF] (build_header ex_stamp None [CR; LF])
     = header_lines ex_stamp None
  /\ omap field_of_line (split [CR; LF] (build_header ex_stamp None [CR; LF]))
     = [ (str "Author", AUTHOR); (str "Email", EMAIL);
         (str "Date", or_empty ex_stamp); (str "LastEditors", AUTHOR);
         (str "LastEditTime", or_empty None); (str "Description", []) ]
  /\ crlf_count (build_header ex_stamp None [CR; LF]) = 8%nat.
Proof.
  assert (H1 : ([CR; LF] : list N) = [LF] \/ ([CR; LF] : list N) = [CR; LF])
    by (right; reflexivity).
  assert (H2 : one_line (or_empty ex_stamp) = true)
    by (vm_compute; reflexivity).
  assert (H3 : one_line (or_empty None) = true) by reflexivity.
  destruct (header_read_back ex_stamp None [CR; LF] H1 H2 H3)
    as (Hsplit & Hfields & _ & Hcount & _).
  split; [repeat split; assumption|].
  split; [exact Hsplit|]. split; [exact Hfields | exact Hcount].
Defined.
